(** * salt.states.npm : desired-state reconciliation of npm packages

    A shallow embedding of [salt/states/npm.py] and the properties of its
    three state functions [installed], [removed] and [bootstrap].

    Python strings are byte strings ([str] of the interpreter this Salt
    release targets); Python values are a JSON-like universe; the
    execution-module table [__salt__] and the option table [__opts__] are
    the host the state functions run against; every call into [__salt__]
    is recorded in a call log so that "is invoked" and "is never invoked"
    are statements about that log. *)

From Stdlib Require Import String Ascii List Bool ZArith Lia DecimalString.
From ExtLib Require Import Structures.Monad Structures.MonadExc.
From ExtLib Require Import Data.Monads.EitherMonad.
Import ListNotations.
Import MonadNotation.
Local Open Scope string_scope.
Local Open Scope monad_scope.

(** ** Python strings *)

Module PyStr.

(** [str.lower] on a byte string: only [A]-[Z] change. *)
Definition lower_char (c : ascii) : ascii :=
  let n := nat_of_ascii c in
  if andb (65 <=? n)%nat (n <=? 90)%nat then ascii_of_nat (n + 32) else c.

Fixpoint lower (s : string) : string :=
  match s with
  | EmptyString => EmptyString
  | String c r => String (lower_char c) (lower r)
  end.

(** The characters [str.strip()] removes: space, \t, \n, \v, \f, \r. *)
Definition is_space (c : ascii) : bool :=
  let n := nat_of_ascii c in
  orb (n =? 32)%nat (andb (9 <=? n)%nat (n <=? 13)%nat).

Fixpoint lstrip (s : string) : string :=
  match s with
  | EmptyString => EmptyString
  | String c r => if is_space c then lstrip r else s
  end.

Fixpoint rstrip (s : string) : string :=
  match s with
  | EmptyString => EmptyString
  | String c r =>
      match rstrip r with
      | EmptyString => if is_space c then EmptyString else String c EmptyString
      | r' => String c r'
      end
  end.

Definition strip (s : string) : string := rstrip (lstrip s).

(** [s.partition(sep)] for a one-character separator: the part before the
    first occurrence, the separator, the part after it; when the separator
    does not occur, [(s, '', '')]. *)
Fixpoint partition (sep : ascii) (s : string) : string * string * string :=
  match s with
  | EmptyString => (EmptyString, EmptyString, EmptyString)
  | String c r =>
      if Ascii.eqb c sep then (EmptyString, String sep EmptyString, r)
      else
        match partition sep r with
        | (h, EmptyString, _) => (String c h, EmptyString, EmptyString)
        | (h, m, t) => (String c h, m, t)
        end
  end.

(** [sep.join(l)] *)
Definition join (sep : string) (l : list string) : string :=
  String.concat sep l.

(** [sub in s] on strings: substring test. *)
Fixpoint contains (sub s : string) : bool :=
  if String.prefix sub s then true
  else match s with
       | EmptyString => false
       | String _ r => contains sub r
       end.

Definition has_char (c : ascii) (s : string) : bool :=
  contains (String c EmptyString) s.

Definition hex_digit (n : nat) : ascii :=
  if (n <? 10)%nat then ascii_of_nat (48 + n) else ascii_of_nat (87 + n).

(** One character of [repr(s)], given the quote character chosen. *)
Definition repr_char (quote c : ascii) : string :=
  let n := nat_of_ascii c in
  if orb (Ascii.eqb c quote) (n =? 92)%nat then String "\" (String c EmptyString)
  else if (n =? 9)%nat then "\t"
  else if (n =? 10)%nat then "\n"
  else if (n =? 13)%nat then "\r"
  else if orb (n <? 32)%nat (127 <=? n)%nat then
    String "\" (String "x" (String (hex_digit (n / 16))
                              (String (hex_digit (n mod 16)) EmptyString)))
  else String c EmptyString.

Fixpoint repr_body (quote : ascii) (s : string) : string :=
  match s with
  | EmptyString => EmptyString
  | String c r => repr_char quote c ++ repr_body quote r
  end.

(** [repr(s)], which is what [{0!r}] formats: single quotes, unless the
    string holds a single quote and no double quote. *)
Definition repr (s : string) : string :=
  let dquote : ascii := ascii_of_nat 34 in
  let quote : ascii :=
    if andb (has_char "'" s) (negb (has_char dquote s)) then dquote
    else "'"%char in
  String quote (repr_body quote s ++ String quote EmptyString).

End PyStr.

(** ** Python values *)

(** The values that cross the boundary with the execution modules: what
    [npm.list], [npm.install] and [npm.uninstall] hand back, and what the
    state functions store in the record they return.  A dict keeps its
    items in insertion order. *)
#[local] Set Warnings "-register-all".

Inductive PyVal : Type :=
| VNone
| VBool (b : bool)
| VInt (z : Z)
| VStr (s : string)
| VList (l : list PyVal)
| VDict (d : list (string * PyVal)).

Definition dict (V : Type) : Type := list (string * V).

Module Dict.
Section Ops.
Context {V : Type}.

(** [d.get(k)] as an option *)
Fixpoint get (d : dict V) (k : string) : option V :=
  match d with
  | [] => None
  | (k', v) :: r => if String.eqb k' k then Some v else get r k
  end.

(** [k in d] *)
Definition mem (k : string) (d : dict V) : bool :=
  match get d k with Some _ => true | None => false end.

(** [d[k] = v]: an existing key keeps its place, a new one goes last. *)
Fixpoint set (d : dict V) (k : string) (v : V) : dict V :=
  match d with
  | [] => [(k, v)]
  | (k', v') :: r =>
      if String.eqb k' k then (k', v) :: r else (k', v') :: set r k v
  end.

Definition keys (d : dict V) : list string := map fst d.
End Ops.
End Dict.

Module Py.

(** [bool(v)] *)
Definition truthy (v : PyVal) : bool :=
  match v with
  | VNone => false
  | VBool b => b
  | VInt z => negb (Z.eqb z 0)
  | VStr s => negb (String.eqb s "")
  | VList l => match l with [] => false | _ => true end
  | VDict d => match d with [] => false | _ => true end
  end.

(** [v is True] *)
Definition is_True (v : PyVal) : bool :=
  match v with VBool true => true | _ => false end.

(** [isinstance(v, list)], [isinstance(v, dict)], [isinstance(v, str)] *)
Definition is_list (v : PyVal) : bool :=
  match v with VList _ => true | _ => false end.
Definition is_dict (v : PyVal) : bool :=
  match v with VDict _ => true | _ => false end.
Definition is_str (v : PyVal) : bool :=
  match v with VStr _ => true | _ => false end.

(** [v == s] for a string [s]: only an equal string is equal to it. *)
Definition eq_str (v : PyVal) (s : string) : bool :=
  match v with VStr t => String.eqb t s | _ => false end.

(** [repr(v)] *)
Fixpoint repr (v : PyVal) : string :=
  match v with
  | VNone => "None"
  | VBool true => "True"
  | VBool false => "False"
  | VInt z => NilZero.string_of_int (Z.to_int z)
  | VStr s => PyStr.repr s
  | VList l => "[" ++ PyStr.join ", " (map repr l) ++ "]"
  | VDict d =>
      "{" ++ PyStr.join ", "
               (map (fun kv => PyStr.repr (fst kv) ++ ": " ++ repr (snd kv)) d)
          ++ "}"
  end.

(** [str(v)], which is what [{0}] formats *)
Definition str (v : PyVal) : string :=
  match v with VStr s => s | _ => repr v end.

(** Exceptions: the two kinds [salt.exceptions] provides and the state
    functions catch, with the text [str(err)] gives; the interpreter's own
    for a failed lookup or a value of the wrong type; any other class. *)
Inductive exn : Type :=
| CommandNotFoundError (msg : string)
| CommandExecutionError (msg : string)
| KeyError (key : string)
| AttributeError (attr : string)
| TypeError
| UnboundLocalError (var : string)
| OtherError (cls msg : string).

(** [v.items()] *)
Definition items (v : PyVal) : exn + dict PyVal :=
  match v with VDict d => inr d | _ => inl (AttributeError "items") end.

(** [v[k]] for a string [k] *)
Definition getitem (v : PyVal) (k : string) : exn + PyVal :=
  match v with
  | VDict d =>
      match Dict.get d k with Some x => inr x | None => inl (KeyError k) end
  | _ => inl TypeError
  end.

(** [v.get(k)] *)
Definition get (v : PyVal) (k : string) : exn + PyVal :=
  match v with
  | VDict d => inr (match Dict.get d k with Some x => x | None => VNone end)
  | _ => inl (AttributeError "get")
  end.

(** [v[k] = x] for a string [k] *)
Definition setitem (v : PyVal) (k : string) (x : PyVal) : exn + PyVal :=
  match v with
  | VDict d => inr (VDict (Dict.set d k x))
  | _ => inl TypeError
  end.

(** [name in v] for a string [name]: a key of a dict, an element of a
    list, a substring of a string. *)
Definition contains (v : PyVal) (name : string) : exn + bool :=
  match v with
  | VDict d => inr (Dict.mem name d)
  | VList l => inr (existsb (fun x => eq_str x name) l)
  | VStr s => inr (PyStr.contains name s)
  | _ => inl TypeError
  end.

End Py.
Export Py (exn(..)).

(** ** The host: [__salt__], [__opts__] and the call log *)

(** One call of [__salt__[fn]] with the keyword arguments [kwargs]. *)
Record Call : Type := mkCall { fn : string; kwargs : dict PyVal }.

(** What the state functions run against.  [__salt__ fn kwargs] is what the
    execution-module function [fn] does when called with [kwargs]: it hands
    back a value or raises ([inl]); a function that is not loaded is one that
    raises [KeyError].  [__opts__] is the minion's option dict. *)
Record Host : Type := mkHost {
  __salt__ : string -> dict PyVal -> exn + PyVal;
  __opts__ : dict PyVal
}.

(** A computation reads the host, logs the calls it makes into [__salt__],
    and ends by raising or by returning. *)
Definition Salt (A : Type) : Type := Host -> list Call * (exn + A).

Definition run {A : Type} (m : Salt A) (h : Host) : list Call * (exn + A) := m h.

#[global] Instance Monad_Salt : Monad Salt := {
  ret := fun _ a _ => ([], inr a);
  bind := fun _ _ m f h =>
    match m h with
    | (l1, inl e) => (l1, inl e)
    | (l1, inr a) => let (l2, r) := f a h in ((l1 ++ l2)%list, r)
    end
}.

#[global] Instance Exc_Salt : MonadExc exn Salt := {
  raise := fun _ e _ => ([], inl e);
  catch := fun _ m handler h =>
    match m h with
    | (l1, inl e) => let (l2, r) := handler e h in ((l1 ++ l2)%list, r)
    | (l1, inr a) => (l1, inr a)
    end
}.

(** Call [__salt__[fn]] with the keyword arguments [kwargs]. *)
Definition invoke (fn : string) (kwargs : dict PyVal) : Salt PyVal :=
  fun h => ([mkCall fn kwargs], __salt__ h fn kwargs).

(** [__opts__[key]] *)
Definition opts (key : string) : Salt PyVal :=
  fun h => ([], match Dict.get (__opts__ h) key with
                | Some v => inr v
                | None => inl (KeyError key)
                end).

(** A step of the interpreter that may raise. *)
Definition lift {A : Type} (r : exn + A) : Salt A := fun _ => ([], r).

(** [try: body / except (CommandNotFoundError, CommandExecutionError) as err:
    handler], the handler being given [str(err)]; any other exception goes
    through. *)
Definition try_except {A : Type} (body : Salt A) (handler : string -> Salt A)
  : Salt A :=
  catch body (fun err =>
    match err with
    | CommandNotFoundError msg | CommandExecutionError msg => handler msg
    | _ => raise err
    end).

(** ** salt/states/npm.py *)

Module npm.

(** [ret = {'name': name, 'result': None, 'comment': '', 'changes': {}}] *)
Definition new_ret (name : string) : dict PyVal :=
  [("name", VStr name); ("result", VNone); ("comment", VStr "");
   ("changes", VDict [])].

(** [{'old': [], 'new': pkgs}] *)
Definition old_new (pkgs : list string) : PyVal :=
  VDict [("old", VList []); ("new", VList (map VStr pkgs))].

(** [dict((p.lower(), info) for p, info in list(installed_pkgs.items()))] *)
Definition lower_keys (items : dict PyVal) : dict PyVal :=
  fold_left (fun d kv => Dict.set d (PyStr.lower (fst kv)) (snd kv)) items [].

(** The variables the loop of [installed] assigns: [pkg_name] is unbound
    until the first iteration. *)
Record loop_vars : Type := mkVars {
  pkg_name : option string;
  pkgs_satisfied : list string;
  pkgs_to_install : list string
}.

Definition to_install (v : loop_vars) (name pkg : string) : loop_vars :=
  mkVars (Some name) (pkgs_satisfied v) (pkgs_to_install v ++ [pkg])%list.

Definition satisfied (v : loop_vars) (name name_ver : string) : loop_vars :=
  mkVars (Some name) (pkgs_satisfied v ++ [name_ver])%list (pkgs_to_install v).

(** [pkg_name, _, pkg_ver = pkg.partition('@')] and
    [pkg_name = pkg_name.strip().lower()] *)
Definition spec_name (pkg : string) : string :=
  PyStr.lower (PyStr.strip (fst (fst (PyStr.partition "@" pkg)))).

Definition spec_ver (pkg : string) : string :=
  snd (PyStr.partition "@" pkg).

(** One iteration of [for pkg in pkg_list] (lines 109-134). *)
Definition loop_body (force_reinstall : PyVal) (installed_pkgs : dict PyVal)
    (v : loop_vars) (pkg : string) : exn + loop_vars :=
  let pkg_name := spec_name pkg in
  let pkg_ver := spec_ver pkg in
  if Py.is_True force_reinstall then inr (to_install v pkg_name pkg)
  else if negb (Dict.mem pkg_name installed_pkgs) then
    inr (to_install v pkg_name pkg)
  else if Dict.mem pkg_name installed_pkgs then
    info <- Py.getitem (VDict installed_pkgs) pkg_name ;;
    version <- Py.getitem info "version" ;;
    let installed_name_ver := pkg_name ++ "@" ++ Py.str version in
    if Py.truthy (VStr pkg_ver) then
      info' <- Py.getitem (VDict installed_pkgs) pkg_name ;;
      version' <- Py.get info' "version" ;;
      if negb (Py.eq_str version' pkg_ver) then
        inr (to_install v pkg_name pkg)
      else inr (satisfied v pkg_name installed_name_ver)
    else inr (satisfied v pkg_name installed_name_ver)
  else inr (mkVars (Some pkg_name) (pkgs_satisfied v) (pkgs_to_install v)).

(** [for pkg in pkg_list: ...] *)
Fixpoint loop (force_reinstall : PyVal) (installed_pkgs : dict PyVal)
    (pkg_list : list string) (v : loop_vars) : exn + loop_vars :=
  match pkg_list with
  | [] => inr v
  | pkg :: rest =>
      match loop_body force_reinstall installed_pkgs v pkg with
      | inl e => inl e
      | inr v' => loop force_reinstall installed_pkgs rest v'
      end
  end.

Definition satisfied_msg (pkg_list sat : list string) : string :=
  "Package(s) " ++ PyStr.repr (PyStr.join ", " pkg_list)
    ++ " satisfied by " ++ PyStr.join ", " sat.

(** The keyword arguments of the two calls [installed] makes. *)
Definition list_args (dir user env : PyVal) : dict PyVal :=
  [("dir", dir); ("runas", user); ("env", env)].

Definition cmd_args (dir user registry env : PyVal) : dict PyVal :=
  [("dir", dir); ("runas", user); ("registry", registry); ("env", env)].

(** Lines 160-170: [cmd_args], to which [pkgs] is added when it was given
    and otherwise the loop's variable [pkg_name]. *)
Definition install_args (pkgs : option (list string)) (v : loop_vars)
    (dir user registry env : PyVal) : exn + dict PyVal :=
  match pkgs with
  | Some l =>
      inr (Dict.set (cmd_args dir user registry env) "pkgs" (VList (map VStr l)))
  | None =>
      match pkg_name v with
      | Some n => inr (Dict.set (cmd_args dir user registry env) "pkg" (VStr n))
      | None => inl (UnboundLocalError "pkg_name")
      end
  end.

(** Lines 91-94: the working list is [pkgs] if given, else [[name]]. *)
Definition working_list (name : string) (pkgs : option (list string))
  : list string :=
  match pkgs with Some l => l | None => [name] end.

Definition installed (name : string) (pkgs : option (list string))
    (dir user force_reinstall registry env : PyVal) : Salt (dict PyVal) :=
  let ret0 := new_ret name in
  let pkg_list := working_list name pkgs in
  listing <-
    try_except
      (r <- invoke "npm.list" (list_args dir user env) ;; ret (inr r))
      (fun err =>
         let ret1 := Dict.set ret0 "result" (VBool false) in
         ret (inl (Dict.set ret1 "comment"
                (VStr ("Error looking up " ++ PyStr.repr name ++ ": " ++ err))))) ;;
  match listing with
  | inl early => ret early
  | inr listed =>
      items <- lift (Py.items listed) ;;
      let installed_pkgs := lower_keys items in
      v <- lift (loop force_reinstall installed_pkgs pkg_list
                   (mkVars None [] [])) ;;
      test <- opts "test" ;;
      if Py.truthy test then
        let ret1 := Dict.set ret0 "result" VNone in
        let to_inst := match pkgs_to_install v with [] => false | _ => true end in
        let sat := match pkgs_satisfied v with [] => false | _ => true end in
        let msg1 :=
          if to_inst then
            ["NPM package(s) " ++ PyStr.repr (PyStr.join ", " (pkgs_to_install v))
               ++ " are set to be installed"]
          else [] in
        let ret2 :=
          if to_inst then Dict.set ret1 "changes" (old_new (pkgs_to_install v))
          else ret1 in
        let msg2 :=
          if sat then [satisfied_msg pkg_list (pkgs_satisfied v)] else [] in
        ret (Dict.set ret2 "comment" (VStr (PyStr.join ". " (msg1 ++ msg2)%list)))
      else
        match pkgs_to_install v with
        | [] =>
            let ret1 := Dict.set ret0 "result" (VBool true) in
            ret (Dict.set ret1 "comment"
                   (VStr (satisfied_msg pkg_list (pkgs_satisfied v))))
        | _ =>
            outcome <-
              try_except
                (args <- lift (install_args pkgs v dir user registry env) ;;
                 call <- invoke "npm.install" args ;;
                 ret (inr call))
                (fun err =>
                   let ret1 := Dict.set ret0 "result" (VBool false) in
                   ret (inl (Dict.set ret1 "comment"
                          (VStr ("Error installing "
                                   ++ PyStr.repr (PyStr.join ", " pkg_list)
                                   ++ ": " ++ err))))) ;;
            match outcome with
            | inl early => ret early
            | inr call =>
                if andb (Py.truthy call) (orb (Py.is_list call) (Py.is_dict call))
                then
                  let ret1 := Dict.set ret0 "result" (VBool true) in
                  let ret2 := Dict.set ret1 "changes" (old_new (pkgs_to_install v)) in
                  ret (Dict.set ret2 "comment"
                         (VStr ("Package(s) "
                                  ++ PyStr.repr (PyStr.join ", " (pkgs_to_install v))
                                  ++ " successfully installed")))
                else
                  let ret1 := Dict.set ret0 "result" (VBool false) in
                  ret (Dict.set ret1 "comment"
                         (VStr ("Could not install package(s) "
                                  ++ PyStr.repr (PyStr.join ", " pkg_list))))
            end
        end
  end.

Definition removed (name : string) (dir user : PyVal) : Salt (dict PyVal) :=
  let ret0 := new_ret name in
  listing <-
    try_except
      (r <- invoke "npm.list" [("dir", dir)] ;; ret (inr r))
      (fun err =>
         let ret1 := Dict.set ret0 "result" (VBool false) in
         ret (inl (Dict.set ret1 "comment"
                (VStr ("Error uninstalling " ++ PyStr.repr name ++ ": " ++ err))))) ;;
  match listing with
  | inl early => ret early
  | inr installed_pkgs =>
      present <- lift (Py.contains installed_pkgs name) ;;
      if negb present then
        let ret1 := Dict.set ret0 "result" (VBool true) in
        ret (Dict.set ret1 "comment"
               (VStr ("Package " ++ PyStr.repr name ++ " is not installed")))
      else
        test <- opts "test" ;;
        if Py.truthy test then
          let ret1 := Dict.set ret0 "result" VNone in
          ret (Dict.set ret1 "comment"
                 (VStr ("Package " ++ PyStr.repr name ++ " is set to be removed")))
        else
          gone <- invoke "npm.uninstall"
                    [("pkg", VStr name); ("dir", dir); ("runas", user)] ;;
          if Py.truthy gone then
            let ret1 := Dict.set ret0 "result" (VBool true) in
            changes <- lift (Py.getitem (VDict ret1) "changes") ;;
            changes' <- lift (Py.setitem changes name (VStr "Removed")) ;;
            let ret2 := Dict.set ret1 "changes" changes' in
            ret (Dict.set ret2 "comment"
                   (VStr ("Package " ++ PyStr.repr name
                            ++ " was successfully removed")))
          else
            let ret1 := Dict.set ret0 "result" (VBool false) in
            ret (Dict.set ret1 "comment"
                   (VStr ("Error removing package " ++ PyStr.repr name)))
  end.

Definition bootstrap (name : string) (user : PyVal) : Salt (dict PyVal) :=
  let ret0 := new_ret name in
  outcome <-
    try_except
      (r <- invoke "npm.install"
              [("dir", VStr name); ("runas", user); ("pkg", VNone)] ;;
       ret (inr r))
      (fun err =>
         let ret1 := Dict.set ret0 "result" (VBool false) in
         ret (inl (Dict.set ret1 "comment"
                (VStr ("Error Bootstrapping " ++ PyStr.repr name ++ ": " ++ err))))) ;;
  match outcome with
  | inl early => ret early
  | inr call =>
      if negb (Py.truthy call) then
        let ret1 := Dict.set ret0 "result" (VBool true) in
        ret (Dict.set ret1 "comment" (VStr "Directory is already bootstrapped"))
      else if Py.is_str call then
        let ret1 := Dict.set ret0 "result" (VBool false) in
        ret (Dict.set ret1 "comment" (VStr "Could not bootstrap directory"))
      else
        let ret1 := Dict.set ret0 "result" (VBool true) in
        let ret2 := Dict.set ret1 "changes" (VDict [(name, VStr "Bootstrapped")]) in
        ret (Dict.set ret2 "comment"
               (VStr "Directory was successfully bootstrapped"))
  end.

End npm.


(** ** Vocabulary of the properties *)

(** The function [f] of [__salt__] was called. *)
Definition invoked (f : string) (log : list Call) : bool :=
  existsb (fun c => String.eqb (fn c) f) log.

(** The two functions that change what is installed. *)
Definition mutating (c : Call) : bool :=
  orb (String.eqb (fn c) "npm.install") (String.eqb (fn c) "npm.uninstall").

(** The global dry-run flag: [__opts__['test']] is set, or is not. *)
Definition dry_run (h : Host) : Prop :=
  exists t, Dict.get (__opts__ h) "test" = Some t /\ Py.truthy t = true.

Definition for_real (h : Host) : Prop :=
  exists t, Dict.get (__opts__ h) "test" = Some t /\ Py.truthy t = false.

(** A Result Record: exactly the keys [name], [result], [comment] and
    [changes], in the name of the declaration, with a three-valued result. *)
Definition result_record (name : string) (r : dict PyVal) : Prop :=
  Dict.keys r = ["name"; "result"; "comment"; "changes"]
  /\ Dict.get r "name" = Some (VStr name)
  /\ (Dict.get r "result" = Some (VBool true)
      \/ Dict.get r "result" = Some (VBool false)
      \/ Dict.get r "result" = Some VNone).

(** The record with the given fields. *)
Definition record (name : string) (result : PyVal) (comment : string)
    (changes : PyVal) : dict PyVal :=
  [("name", VStr name); ("result", result); ("comment", VStr comment);
   ("changes", changes)].

(** A spec is met by the records: its name is recorded with a version, and
    it declares no version or exactly the recorded one. *)
Definition spec_met (installed_pkgs : dict PyVal) (pkg : string) : Prop :=
  exists info version,
    Dict.get installed_pkgs (npm.spec_name pkg) = Some (VDict info)
    /\ Dict.get info "version" = Some version
    /\ (npm.spec_ver pkg = "" \/ version = VStr (npm.spec_ver pkg)).

(** [name@version] of the record a spec names (line 121). *)
Definition name_ver (installed_pkgs : dict PyVal) (pkg : string) : string :=
  npm.spec_name pkg ++ "@" ++
  match Dict.get installed_pkgs (npm.spec_name pkg) with
  | Some (VDict info) =>
      match Dict.get info "version" with Some v => Py.str v | None => "" end
  | _ => ""
  end.

(** The two kinds of failure the state functions catch, with their text. *)
Definition salt_error (e : exn) (msg : string) : Prop :=
  e = CommandNotFoundError msg \/ e = CommandExecutionError msg.

(** A non-empty list or mapping. *)
Definition nonempty_collection (v : PyVal) : Prop :=
  (exists x l, v = VList (x :: l)) \/ (exists kv d, v = VDict (kv :: d)).

(** Hosts for the scenarios: what the three functions of the npm execution
    module do, whatever their arguments, and the dry-run flag. *)
Definition host (listing install uninstall : exn + PyVal) (test : bool) : Host :=
  mkHost (fun f _ =>
            if String.eqb f "npm.list" then listing
            else if String.eqb f "npm.install" then install
            else uninstall)
         [("test", VBool test)].

(** The records [{"coffee-script": {"version": version}}]. *)
Definition coffee_script (version : string) : dict PyVal :=
  [("coffee-script", VDict [("version", VStr version)])].

(** The version the records hold for the package a spec names ([None] when
    there is none to read). *)
Definition recorded_version (installed_pkgs : dict PyVal) (pkg : string) : PyVal :=
  match Dict.get installed_pkgs (npm.spec_name pkg) with
  | Some (VDict info) =>
      match Dict.get info "version" with Some v => v | None => VNone end
  | _ => VNone
  end.

(** The decision of lines 112-134 for one spec: install it when
    [force_reinstall is True], when its name is not recorded, or when it
    declares a version other than the recorded one. *)
Definition needs_install (force_reinstall : PyVal) (installed_pkgs : dict PyVal)
    (pkg : string) : bool :=
  orb (Py.is_True force_reinstall)
    (orb (negb (Dict.mem (npm.spec_name pkg) installed_pkgs))
       (andb (negb (String.eqb (npm.spec_ver pkg) ""))
          (negb (Py.eq_str (recorded_version installed_pkgs pkg)
                   (npm.spec_ver pkg))))).

(** The record a spec names, if there is one, is a mapping with a version. *)
Definition versioned (installed_pkgs : dict PyVal) (pkg : string) : Prop :=
  Dict.mem (npm.spec_name pkg) installed_pkgs = true ->
  exists info v,
    Dict.get installed_pkgs (npm.spec_name pkg) = Some (VDict info)
    /\ Dict.get info "version" = Some v.

(** The character [c] occurs in [s]. *)
Definition occurs (c : ascii) (s : string) : Prop :=
  In c (list_ascii_of_string s).

(** Two outcomes of a state function that agree on everything but the
    comment: the same exception, or records with the same result and the
    same changes. *)
Definition same_verdict (o1 o2 : exn + dict PyVal) : Prop :=
  match o1, o2 with
  | inl e1, inl e2 => e1 = e2
  | inr r1, inr r2 =>
      Dict.get r1 "result" = Dict.get r2 "result"
      /\ Dict.get r1 "changes" = Dict.get r2 "changes"
  | _, _ => False
  end.

(** An exception of a class other than the two the state functions catch. *)
Definition foreign (e : exn) : Prop :=
  forall msg, ~ salt_error e msg.

(** ** Proof automation *)

Arguments PyStr.repr : simpl never.
Arguments PyStr.join : simpl never.
Arguments PyStr.contains : simpl never.
Arguments npm.satisfied_msg : simpl never.
Arguments npm.spec_name : simpl never.
Arguments npm.spec_ver : simpl never.
Arguments npm.lower_keys : simpl never.
Arguments npm.loop : simpl never.
Arguments npm.install_args : simpl never.
Arguments npm.working_list : simpl never.
Arguments npm.list_args : simpl never.
Arguments npm.old_new : simpl never.
Arguments String.append : simpl never.

(** Unfold a state function down to the host's answers. *)
Ltac run_salt :=
  unfold run, npm.installed, npm.removed, npm.bootstrap,
    try_except, invoke, opts, lift; cbn.

(** Split on the scrutinee of the outermost stuck [match] of the goal. *)
Ltac break_match :=
  match goal with
  | |- context [match ?x with _ => _ end] =>
      lazymatch x with
      | context [match _ with _ => _ end] => fail
      | _ => destruct x eqn:?
      end
  end.

Ltac break_all := repeat (break_match; cbn in *).

(** Close a goal [inr r' = inr r -> result_record name r]. *)
Ltac record_shape :=
  intros H; inversion H; subst; clear H;
  unfold result_record; cbn; auto.

Ltac failed_no_changes :=
  intros H Hres; inversion H; subst; clear H; cbn in *;
  first [discriminate | reflexivity].

Ltac change_is_backed :=
  intros H Hres Hch; inversion H; subst; clear H; cbn in *;
  first [discriminate | reflexivity | exfalso; apply Hch; reflexivity].

(** ** Properties of the dict operations *)

Lemma mem_get {V : Type} (k : string) (d : dict V) :
  Dict.mem k d = true <-> exists v, Dict.get d k = Some v.
Proof.
  unfold Dict.mem. destruct (Dict.get d k) as [v|].
  - split; [intros _; now exists v | reflexivity].
  - split; [discriminate | intros [v Hv]; discriminate].
Qed.

Lemma mem_keys {V : Type} (k : string) (d : dict V) :
  Dict.mem k d = true <-> In k (Dict.keys d).
Proof.
  unfold Dict.mem, Dict.keys.
  induction d as [|[k' v'] d IH]; simpl.
  - split; [discriminate | tauto].
  - destruct (String.eqb_spec k' k) as [->|Hne].
    + split; auto.
    + rewrite IH. split; [auto | intros [Heq|Hin]; [contradiction | exact Hin]].
Qed.

Lemma not_mem_keys {V : Type} (k : string) (d : dict V) :
  Dict.mem k d = false <-> ~ In k (Dict.keys d).
Proof.
  rewrite <- mem_keys. destruct (Dict.mem k d); split; congruence.
Qed.

(** ** [removed] *)

Lemma removed_absent_run (h : Host) (name : string) (dir user : PyVal)
    (recs : dict PyVal) :
  __salt__ h "npm.list" [("dir", dir)] = inr (VDict recs) ->
  ~ In name (Dict.keys recs) ->
  run (npm.removed name dir user) h =
    ([mkCall "npm.list" [("dir", dir)]],
     inr (record name (VBool true)
            ("Package " ++ PyStr.repr name ++ " is not installed") (VDict []))).
Proof.
  intros Hlist Habs. apply not_mem_keys in Habs.
  unfold run, npm.removed, try_except, invoke, lift. cbn.
  rewrite Hlist. cbn. rewrite Habs. cbn. reflexivity.
Qed.

Lemma removed_first_call (h : Host) (name : string) (dir user : PyVal) :
  exists rest,
    fst (run (npm.removed name dir user) h) = mkCall "npm.list" [("dir", dir)] :: rest.
Proof.
  run_salt.
  destruct (__salt__ h "npm.list" [("dir", dir)]) as [e|v]; cbn.
  - destruct e; cbn; eauto.
  - break_all; cbn; eauto.
Qed.

(** C8. A name that is not, as an exact string, a key of the records the
    listing capability returned: [removed] returns result=true with the "is
    not installed" comment and empty changes, and [npm.uninstall] is never
    invoked. *)
Theorem removed_absent_name (h : Host) (name : string) (dir user : PyVal)
    (recs : dict PyVal) :
  __salt__ h "npm.list" [("dir", dir)] = inr (VDict recs) ->
  ~ In name (Dict.keys recs) ->
  snd (run (npm.removed name dir user) h) =
    inr (record name (VBool true)
           ("Package " ++ PyStr.repr name ++ " is not installed") (VDict []))
  /\ invoked "npm.uninstall" (fst (run (npm.removed name dir user) h)) = false.
Proof.
  intros Hlist Habs.
  rewrite (removed_absent_run h name dir user recs Hlist Habs).
  split; reflexivity.
Qed.

Lemma removed_absent_name_witness :
  let h := host (inr (VDict [])) (inr VNone) (inr (VBool true)) false in
  __salt__ h "npm.list" [("dir", VNone)] = inr (VDict [])
  /\ ~ In "coffee-script" (Dict.keys (@nil (string * PyVal)))
  /\ snd (run (npm.removed "coffee-script" VNone VNone) h) =
       inr (record "coffee-script" (VBool true)
              "Package 'coffee-script' is not installed" (VDict []))
  /\ invoked "npm.uninstall"
       (fst (run (npm.removed "coffee-script" VNone VNone) h)) = false.
Proof.
  intro h.
  assert (Hlist : __salt__ h "npm.list" [("dir", VNone)] = inr (VDict []))
    by reflexivity.
  assert (Habs : ~ In "coffee-script" (Dict.keys (@nil (string * PyVal))))
    by (simpl; tauto).
  split; [exact Hlist | split; [exact Habs |]].
  exact (removed_absent_name h "coffee-script" VNone VNone [] Hlist Habs).
Defined.

Lemma removed_present_run (h : Host) (name : string) (dir user : PyVal)
    (recs : dict PyVal) :
  __salt__ h "npm.list" [("dir", dir)] = inr (VDict recs) ->
  In name (Dict.keys recs) ->
  snd (run (npm.removed name dir user) h) <>
    inr (record name (VBool true)
           ("Package " ++ PyStr.repr name ++ " is not installed") (VDict [])).
Proof.
  intros Hlist Hin. apply mem_keys in Hin.
  run_salt. rewrite Hlist. cbn. rewrite Hin. cbn.
  break_all; unfold record; congruence.
Qed.

(** The asymmetry on one host: the records hold [Coffee-Script]; asked about
    [coffee-script], [installed] finds it (both sides lower-cased) and
    [removed] does not (exact key). *)
Lemma case_asymmetry :
  let h := host (inr (VDict [("Coffee-Script", VDict [("version", VStr "1.0.0")])]))
             (inr VNone) (inr VNone) false in
  snd (run (npm.installed "coffee-script" None VNone VNone (VBool false) VNone VNone) h)
    = inr (record "coffee-script" (VBool true)
             "Package(s) 'coffee-script' satisfied by coffee-script@1.0.0" (VDict []))
  /\ snd (run (npm.removed "coffee-script" VNone VNone) h)
    = inr (record "coffee-script" (VBool true)
             "Package 'coffee-script' is not installed" (VDict [])).
Proof. split; reflexivity. Qed.

Lemma installed_first_call (h : Host) (name : string) (pkgs : option (list string))
    (dir user force_reinstall registry env : PyVal) :
  exists rest,
    fst (run (npm.installed name pkgs dir user force_reinstall registry env) h)
    = mkCall "npm.list" [("dir", dir); ("runas", user); ("env", env)] :: rest.
Proof.
  run_salt. change (npm.list_args dir user env)
    with [("dir", dir); ("runas", user); ("env", env)].
  destruct (__salt__ h "npm.list" _) as [e|v]; cbn.
  - destruct e; cbn; eauto.
  - break_all; cbn; eauto.
Qed.

(** C7. [removed] opens with the call [npm.list(dir=dir)], neither [runas]
    nor [env] among its arguments, and reports "not installed" exactly when
    the name is not, as the exact string given, a key of the records
    returned.  [installed] differs on both counts: it opens with
    [npm.list(dir=dir, runas=user, env=env)], and it compares lower-cased
    names, so that one listing can make [installed] find a package that
    [removed] finds absent. *)
Theorem removed_lists_by_dir_and_exact_key (h : Host) (name : string)
    (pkgs : option (list string)) (dir user force_reinstall registry env : PyVal) :
  (exists rest,
     fst (run (npm.removed name dir user) h)
     = mkCall "npm.list" [("dir", dir)] :: rest)
  /\ (forall recs,
        __salt__ h "npm.list" [("dir", dir)] = inr (VDict recs) ->
        (snd (run (npm.removed name dir user) h) =
           inr (record name (VBool true)
                  ("Package " ++ PyStr.repr name ++ " is not installed") (VDict []))
         <-> ~ In name (Dict.keys recs)))
  /\ (exists rest,
        fst (run (npm.installed name pkgs dir user force_reinstall registry env) h)
        = mkCall "npm.list" [("dir", dir); ("runas", user); ("env", env)] :: rest)
  /\ (let h' := host (inr (VDict [("Coffee-Script",
                                   VDict [("version", VStr "1.0.0")])]))
                  (inr VNone) (inr VNone) false in
      snd (run (npm.installed "coffee-script" None VNone VNone (VBool false)
                  VNone VNone) h')
      = inr (record "coffee-script" (VBool true)
               "Package(s) 'coffee-script' satisfied by coffee-script@1.0.0"
               (VDict []))
      /\ snd (run (npm.removed "coffee-script" VNone VNone) h')
         = inr (record "coffee-script" (VBool true)
                  "Package 'coffee-script' is not installed" (VDict []))).
Proof.
  split; [apply removed_first_call | split; [| split]].
  - intros recs Hlist. split.
    + intros Hrun Hin.
      exact (removed_present_run h name dir user recs Hlist Hin Hrun).
    + intros Habs.
      now rewrite (removed_absent_run h name dir user recs Hlist Habs).
  - apply installed_first_call.
  - exact case_asymmetry.
Qed.

Lemma removed_lists_by_dir_and_exact_key_witness :
  let h := host (inr (VDict (coffee_script "1.0.0"))) (inr VNone)
             (inr (VBool true)) false in
  __salt__ h "npm.list" [("dir", VStr "/srv/app")] = inr (VDict (coffee_script "1.0.0"))
  /\ fst (run (npm.removed "Coffee-Script" (VStr "/srv/app") (VStr "node")) h)
     = [mkCall "npm.list" [("dir", VStr "/srv/app")]]
  /\ (snd (run (npm.removed "Coffee-Script" (VStr "/srv/app") (VStr "node")) h) =
        inr (record "Coffee-Script" (VBool true)
               ("Package " ++ PyStr.repr "Coffee-Script" ++ " is not installed")
               (VDict []))
      <-> ~ In "Coffee-Script" (Dict.keys (coffee_script "1.0.0"))).
Proof.
  intro h.
  assert (Hlist : __salt__ h "npm.list" [("dir", VStr "/srv/app")]
                  = inr (VDict (coffee_script "1.0.0"))) by reflexivity.
  split; [exact Hlist | split; [reflexivity |]].
  exact (proj1 (proj2 (removed_lists_by_dir_and_exact_key h "Coffee-Script" None
                         (VStr "/srv/app") (VStr "node") (VBool false) VNone VNone))
           (coffee_script "1.0.0") Hlist).
Defined.

(** ** [bootstrap] *)

(** [bootstrap] makes one call, [npm.install(dir=name, runas=user, pkg=None)],
    whatever [__opts__] holds. *)
Lemma bootstrap_log (h : Host) (name : string) (user : PyVal) :
  fst (run (npm.bootstrap name user) h)
  = [mkCall "npm.install" [("dir", VStr name); ("runas", user); ("pkg", VNone)]].
Proof.
  run_salt.
  destruct (__salt__ h "npm.install" _) as [e|v]; cbn.
  - destruct e; reflexivity.
  - break_all; reflexivity.
Qed.

(** C9. When [npm.install] returns [call] without raising, [bootstrap]
    returns: for a falsy [call], result=true, "Directory is already
    bootstrapped", no changes; for a (non-empty, hence truthy) string,
    result=false, "Could not bootstrap directory"; for any other truthy
    value, result=true with changes [{name: 'Bootstrapped'}]. *)
Theorem bootstrap_outcome (h : Host) (name : string) (user call : PyVal) :
  __salt__ h "npm.install" [("dir", VStr name); ("runas", user); ("pkg", VNone)]
    = inr call ->
  (Py.truthy call = false ->
     snd (run (npm.bootstrap name user) h)
     = inr (record name (VBool true) "Directory is already bootstrapped" (VDict [])))
  /\ (forall s, call = VStr s -> s <> "" ->
       snd (run (npm.bootstrap name user) h)
       = inr (record name (VBool false) "Could not bootstrap directory" (VDict [])))
  /\ (Py.truthy call = true -> Py.is_str call = false ->
       snd (run (npm.bootstrap name user) h)
       = inr (record name (VBool true) "Directory was successfully bootstrapped"
                (VDict [(name, VStr "Bootstrapped")]))).
Proof.
  intros Hcall. run_salt. rewrite Hcall. cbn.
  split; [| split].
  - intros Hfalsy. rewrite Hfalsy. reflexivity.
  - intros s -> Hs. cbn.
    destruct (String.eqb_spec s "") as [->|_]; [contradiction | reflexivity].
  - intros Htruthy Hstr. rewrite Htruthy, Hstr. reflexivity.
Qed.

Lemma bootstrap_outcome_witness :
  let h := host (inr VNone) (inr (VStr "unparseable output")) (inr VNone) false in
  __salt__ h "npm.install" [("dir", VStr "/proj"); ("runas", VNone); ("pkg", VNone)]
    = inr (VStr "unparseable output")
  /\ "unparseable output" <> ""
  /\ snd (run (npm.bootstrap "/proj" VNone) h)
     = inr (record "/proj" (VBool false) "Could not bootstrap directory" (VDict [])).
Proof.
  intro h.
  assert (Hcall : __salt__ h "npm.install"
                    [("dir", VStr "/proj"); ("runas", VNone); ("pkg", VNone)]
                  = inr (VStr "unparseable output")) by reflexivity.
  assert (Hs : "unparseable output" <> "") by discriminate.
  split; [exact Hcall | split; [exact Hs |]].
  exact (proj1 (proj2 (bootstrap_outcome h "/proj" VNone
                         (VStr "unparseable output") Hcall))
           "unparseable output" eq_refl Hs).
Defined.

(** ** [installed] *)

(** The loop over specs that are all met marks every one satisfied. *)
Lemma loop_body_met (inst : dict PyVal) (v : npm.loop_vars) (pkg : string) :
  spec_met inst pkg ->
  npm.loop_body (VBool false) inst v pkg
  = inr (npm.satisfied v (npm.spec_name pkg) (name_ver inst pkg)).
Proof.
  intros (info & version & Hget & Hver & Hdecl).
  unfold npm.loop_body, name_ver. cbn.
  assert (Hmem : Dict.mem (npm.spec_name pkg) inst = true)
    by (apply mem_get; eauto).
  rewrite Hmem. cbn. rewrite Hget. cbn. rewrite Hver. cbn.
  destruct Hdecl as [Hnone | Hsame].
  - rewrite Hnone. reflexivity.
  - destruct (String.eqb_spec (npm.spec_ver pkg) ""); cbn; [reflexivity |].
    rewrite Hsame. cbn. rewrite String.eqb_refl. reflexivity.
Qed.

Lemma loop_all_met (inst : dict PyVal) (l : list string) :
  Forall (spec_met inst) l ->
  forall v, exists n,
    npm.loop (VBool false) inst l v
    = inr (npm.mkVars n (npm.pkgs_satisfied v ++ map (name_ver inst) l)%list
             (npm.pkgs_to_install v)).
Proof.
  induction 1 as [|pkg l Hpkg _ IH]; intros v.
  - exists (npm.pkg_name v). cbn. rewrite app_nil_r. now destruct v.
  - unfold npm.loop; fold npm.loop. rewrite (loop_body_met inst v pkg Hpkg).
    destruct (IH (npm.satisfied v (npm.spec_name pkg) (name_ver inst pkg)))
      as [n Hn].
    exists n. rewrite Hn. cbn. now rewrite <- app_assoc.
Qed.

Lemma installed_satisfied_run (h : Host) (name : string)
    (pkgs : option (list string)) (dir user registry env : PyVal)
    (recs : dict PyVal) :
  __salt__ h "npm.list" (npm.list_args dir user env) = inr (VDict recs) ->
  for_real h ->
  Forall (spec_met (npm.lower_keys recs)) (npm.working_list name pkgs) ->
  run (npm.installed name pkgs dir user (VBool false) registry env) h
  = ([mkCall "npm.list" (npm.list_args dir user env)],
     inr (record name (VBool true)
            (npm.satisfied_msg (npm.working_list name pkgs)
               (map (name_ver (npm.lower_keys recs)) (npm.working_list name pkgs)))
            (VDict []))).
Proof.
  intros Hlist (t & Ht & Hoff) Hmet.
  destruct (loop_all_met _ _ Hmet (npm.mkVars None [] [])) as [n Hloop].
  run_salt. rewrite Hlist. cbn. rewrite Hloop. cbn. rewrite Ht. cbn.
  rewrite Hoff. reflexivity.
Qed.

(** C2. Every spec of the working list names (lower-cased) a package of the
    installed records, which record their version, and declares no version
    or exactly the recorded one; [force_reinstall] is false and dry-run is
    off.  Then [installed] returns result=true with empty changes, its
    comment citing the recorded [name@version]s, and the only call made is
    the listing one: [npm.install] is never invoked. *)
Theorem installed_already_satisfied (h : Host) (name : string)
    (pkgs : option (list string)) (dir user registry env : PyVal)
    (recs : dict PyVal) :
  __salt__ h "npm.list" (npm.list_args dir user env) = inr (VDict recs) ->
  for_real h ->
  Forall (spec_met (npm.lower_keys recs)) (npm.working_list name pkgs) ->
  snd (run (npm.installed name pkgs dir user (VBool false) registry env) h)
  = inr (record name (VBool true)
           (npm.satisfied_msg (npm.working_list name pkgs)
              (map (name_ver (npm.lower_keys recs)) (npm.working_list name pkgs)))
           (VDict []))
  /\ invoked "npm.install"
       (fst (run (npm.installed name pkgs dir user (VBool false) registry env) h))
     = false.
Proof.
  intros Hlist Hreal Hmet.
  rewrite (installed_satisfied_run h name pkgs dir user registry env recs
             Hlist Hreal Hmet).
  split; reflexivity.
Qed.

(** The hypothesis that the records carry a version is used: line 122
    subscripts the record with ['version'] before anything is decided, so a
    record without one ends [installed] with [KeyError]. *)
Example installed_record_without_version :
  run (npm.installed "coffee-script" None VNone VNone (VBool false) VNone VNone)
      (host (inr (VDict [("coffee-script", VDict [("missing", VBool true)])]))
         (inr VNone) (inr VNone) false)
  = ([mkCall "npm.list" [("dir", VNone); ("runas", VNone); ("env", VNone)]],
     inl (KeyError "version")).
Proof. reflexivity. Qed.

Lemma coffee_script_met :
  Forall (spec_met (npm.lower_keys (coffee_script "1.0.1")))
    (npm.working_list "coffee-script@1.0.1" None).
Proof.
  repeat constructor.
  exists [("version", VStr "1.0.1")], (VStr "1.0.1").
  repeat split. now right.
Qed.

Lemma installed_already_satisfied_witness :
  let h := host (inr (VDict (coffee_script "1.0.1"))) (inr VNone) (inr VNone)
             false in
  __salt__ h "npm.list" (npm.list_args VNone VNone VNone)
    = inr (VDict (coffee_script "1.0.1"))
  /\ for_real h
  /\ snd (run (npm.installed "coffee-script@1.0.1" None VNone VNone (VBool false)
                 VNone VNone) h)
     = inr (record "coffee-script@1.0.1" (VBool true)
              "Package(s) 'coffee-script@1.0.1' satisfied by coffee-script@1.0.1"
              (VDict []))
  /\ invoked "npm.install"
       (fst (run (npm.installed "coffee-script@1.0.1" None VNone VNone
                    (VBool false) VNone VNone) h)) = false.
Proof.
  intro h.
  assert (Hlist : __salt__ h "npm.list" (npm.list_args VNone VNone VNone)
                  = inr (VDict (coffee_script "1.0.1"))) by reflexivity.
  assert (Hreal : for_real h) by (exists (VBool false); split; reflexivity).
  split; [exact Hlist | split; [exact Hreal |]].
  exact (installed_already_satisfied h "coffee-script@1.0.1" None VNone VNone
           VNone VNone (coffee_script "1.0.1") Hlist Hreal coffee_script_met).
Defined.

(** Every iteration that completes leaves [pkg_name] bound to the stripped,
    lower-cased name part of the spec it looked at. *)
Lemma loop_body_pkg_name (fr : PyVal) (inst : dict PyVal) (v v' : npm.loop_vars)
    (pkg : string) :
  npm.loop_body fr inst v pkg = inr v' ->
  npm.pkg_name v' = Some (npm.spec_name pkg).
Proof.
  unfold npm.loop_body. cbn.
  break_all; intros H; try discriminate; now inversion H.
Qed.

Lemma loop_single_pkg_name (fr : PyVal) (inst : dict PyVal) (v : npm.loop_vars)
    (name : string) :
  npm.loop fr inst [name] (npm.mkVars None [] []) = inr v ->
  npm.pkg_name v = Some (npm.spec_name name).
Proof.
  unfold npm.loop. intros H.
  destruct (npm.loop_body fr inst _ name) as [e|v'] eqn:Hbody; [discriminate |].
  inversion H; subst. exact (loop_body_pkg_name _ _ _ _ _ Hbody).
Qed.

(** The run of [installed] up to and including the call of [npm.install]:
    the listing succeeded, the loop completed with something to install,
    dry-run is off and the arguments of the call could be built. *)
Lemma installed_reaches_install (h : Host) (name : string)
    (pkgs : option (list string)) (dir user force_reinstall registry env : PyVal)
    (recs : dict PyVal) (v : npm.loop_vars) (args : dict PyVal) :
  __salt__ h "npm.list" (npm.list_args dir user env) = inr (VDict recs) ->
  for_real h ->
  npm.loop force_reinstall (npm.lower_keys recs) (npm.working_list name pkgs)
    (npm.mkVars None [] []) = inr v ->
  npm.pkgs_to_install v <> [] ->
  npm.install_args pkgs v dir user registry env = inr args ->
  run (npm.installed name pkgs dir user force_reinstall registry env) h
  = ([mkCall "npm.list" (npm.list_args dir user env); mkCall "npm.install" args],
     match __salt__ h "npm.install" args with
     | inl (CommandNotFoundError msg) | inl (CommandExecutionError msg) =>
         inr (record name (VBool false)
                ("Error installing "
                   ++ PyStr.repr (PyStr.join ", " (npm.working_list name pkgs))
                   ++ ": " ++ msg) (VDict []))
     | inl e => inl e
     | inr call =>
         if andb (Py.truthy call) (orb (Py.is_list call) (Py.is_dict call)) then
           inr (record name (VBool true)
                  ("Package(s) "
                     ++ PyStr.repr (PyStr.join ", " (npm.pkgs_to_install v))
                     ++ " successfully installed")
                  (npm.old_new (npm.pkgs_to_install v)))
         else
           inr (record name (VBool false)
                  ("Could not install package(s) "
                     ++ PyStr.repr (PyStr.join ", " (npm.working_list name pkgs)))
                  (VDict []))
     end).
Proof.
  intros Hlist (t & Ht & Hoff) Hloop Hsome Hargs.
  run_salt. rewrite Hlist. cbn. rewrite Hloop. cbn. rewrite Ht. cbn.
  rewrite Hoff.
  destruct (npm.pkgs_to_install v) as [|p rest] eqn:Hinst; [contradiction |].
  cbn. rewrite Hargs. cbn.
  destruct (__salt__ h "npm.install" args) as [e|call]; cbn.
  - destruct e; reflexivity.
  - destruct (Py.truthy call && (Py.is_list call || Py.is_dict call))%bool;
      reflexivity.
Qed.

Lemma truthy_collection (call : PyVal) :
  andb (Py.truthy call) (orb (Py.is_list call) (Py.is_dict call)) = true
  <-> nonempty_collection call.
Proof.
  unfold nonempty_collection. split.
  - destruct call as [| b | z | s | [|x l] | [|kv d]]; cbn;
      try discriminate; rewrite ?andb_false_r; try discriminate; eauto.
  - intros [(x & l & ->) | (kv & d & ->)]; reflexivity.
Qed.

(** C4. On the single-[pkg] path ([pkgs] not given, something to install,
    dry-run off) the [pkg] argument [npm.install] is called with is the
    loop's last [pkg_name], that is the part of [name] before the first [@],
    stripped and lower-cased; whenever that differs from [name], the
    requested string is not what is passed. *)
Theorem installed_single_passes_pkg_name (h : Host) (name : string)
    (dir user force_reinstall registry env : PyVal)
    (recs : dict PyVal) (v : npm.loop_vars) :
  __salt__ h "npm.list" (npm.list_args dir user env) = inr (VDict recs) ->
  for_real h ->
  npm.loop force_reinstall (npm.lower_keys recs) (npm.working_list name None)
    (npm.mkVars None [] []) = inr v ->
  npm.pkgs_to_install v <> [] ->
  npm.pkg_name v = Some (npm.spec_name name)
  /\ exists args,
       fst (run (npm.installed name None dir user force_reinstall registry env) h)
       = [mkCall "npm.list" (npm.list_args dir user env);
          mkCall "npm.install" args]
       /\ Dict.get args "pkg" = Some (VStr (npm.spec_name name))
       /\ Dict.get args "pkgs" = None
       /\ (npm.spec_name name <> name -> Dict.get args "pkg" <> Some (VStr name)).
Proof.
  intros Hlist Hreal Hloop Hsome.
  pose proof (loop_single_pkg_name _ _ _ _ Hloop) as Hname.
  split; [exact Hname |].
  exists (Dict.set (npm.cmd_args dir user registry env) "pkg"
            (VStr (npm.spec_name name))).
  assert (Hargs : npm.install_args None v dir user registry env
                  = inr (Dict.set (npm.cmd_args dir user registry env) "pkg"
                           (VStr (npm.spec_name name))))
    by (unfold npm.install_args; now rewrite Hname).
  rewrite (installed_reaches_install h name None dir user force_reinstall
             registry env recs v _ Hlist Hreal Hloop Hsome Hargs).
  repeat split. cbn. congruence.
Qed.

Lemma installed_single_passes_pkg_name_witness :
  let h := host (inr (VDict (coffee_script "1.0.0")))
             (inr (VDict [("coffee-script", VNone)])) (inr VNone) false in
  let v := npm.mkVars (Some "coffee-script") [] ["Coffee-Script@1.0.1"] in
  __salt__ h "npm.list" (npm.list_args VNone VNone VNone)
    = inr (VDict (coffee_script "1.0.0"))
  /\ for_real h
  /\ npm.loop (VBool false) (npm.lower_keys (coffee_script "1.0.0"))
       (npm.working_list "Coffee-Script@1.0.1" None) (npm.mkVars None [] [])
     = inr v
  /\ npm.pkgs_to_install v <> []
  /\ npm.pkg_name v = Some "coffee-script"
  /\ exists args,
       fst (run (npm.installed "Coffee-Script@1.0.1" None VNone VNone
                   (VBool false) VNone VNone) h)
       = [mkCall "npm.list" (npm.list_args VNone VNone VNone);
          mkCall "npm.install" args]
       /\ Dict.get args "pkg" = Some (VStr "coffee-script")
       /\ Dict.get args "pkgs" = None
       /\ (npm.spec_name "Coffee-Script@1.0.1" <> "Coffee-Script@1.0.1" ->
           Dict.get args "pkg" <> Some (VStr "Coffee-Script@1.0.1")).
Proof.
  intros h v.
  assert (Hlist : __salt__ h "npm.list" (npm.list_args VNone VNone VNone)
                  = inr (VDict (coffee_script "1.0.0"))) by reflexivity.
  assert (Hreal : for_real h) by (exists (VBool false); split; reflexivity).
  assert (Hloop : npm.loop (VBool false) (npm.lower_keys (coffee_script "1.0.0"))
                    (npm.working_list "Coffee-Script@1.0.1" None)
                    (npm.mkVars None [] []) = inr v) by reflexivity.
  assert (Hsome : npm.pkgs_to_install v <> []) by discriminate.
  split; [exact Hlist | split; [exact Hreal | split; [exact Hloop |
    split; [exact Hsome |]]]].
  exact (installed_single_passes_pkg_name h "Coffee-Script@1.0.1" VNone VNone
           (VBool false) VNone VNone (coffee_script "1.0.0") v
           Hlist Hreal Hloop Hsome).
Defined.

(** C6. Once [npm.install] has been invoked and has returned [call] without
    raising, [installed] returns result=true if and only if [call] is a
    non-empty list or mapping, then with changes [{old: [], new: to-install}];
    for any other [call] it returns result=false with the "Could not install
    package(s)" comment. *)
Theorem installed_success_shape (h : Host) (name : string)
    (pkgs : option (list string)) (dir user force_reinstall registry env : PyVal)
    (recs : dict PyVal) (v : npm.loop_vars) (args : dict PyVal) (call : PyVal) :
  __salt__ h "npm.list" (npm.list_args dir user env) = inr (VDict recs) ->
  for_real h ->
  npm.loop force_reinstall (npm.lower_keys recs) (npm.working_list name pkgs)
    (npm.mkVars None [] []) = inr v ->
  npm.pkgs_to_install v <> [] ->
  npm.install_args pkgs v dir user registry env = inr args ->
  __salt__ h "npm.install" args = inr call ->
  invoked "npm.install"
    (fst (run (npm.installed name pkgs dir user force_reinstall registry env) h))
  = true
  /\ exists r,
       snd (run (npm.installed name pkgs dir user force_reinstall registry env) h)
       = inr r
       /\ (Dict.get r "result" = Some (VBool true) <-> nonempty_collection call)
       /\ (nonempty_collection call ->
           r = record name (VBool true)
                 ("Package(s) "
                    ++ PyStr.repr (PyStr.join ", " (npm.pkgs_to_install v))
                    ++ " successfully installed")
                 (VDict [("old", VList []);
                         ("new", VList (map VStr (npm.pkgs_to_install v)))]))
       /\ (~ nonempty_collection call ->
           r = record name (VBool false)
                 ("Could not install package(s) "
                    ++ PyStr.repr (PyStr.join ", " (npm.working_list name pkgs)))
                 (VDict [])).
Proof.
  intros Hlist Hreal Hloop Hsome Hargs Hcall.
  rewrite (installed_reaches_install h name pkgs dir user force_reinstall
             registry env recs v args Hlist Hreal Hloop Hsome Hargs).
  rewrite Hcall. split; [reflexivity |].
  pose proof (truthy_collection call) as Hshape.
  destruct (andb (Py.truthy call) (orb (Py.is_list call) (Py.is_dict call))).
  - eexists; split; [reflexivity |].
    assert (Hyes : nonempty_collection call) by now apply Hshape.
    repeat split; auto. intros Hno. contradiction.
  - eexists; split; [reflexivity |].
    assert (Hno : ~ nonempty_collection call)
      by (intros Hyes; apply Hshape in Hyes; discriminate).
    repeat split; auto.
    + cbn. discriminate.
    + intros Hyes. contradiction.
    + intros Hyes. contradiction.
Qed.

Lemma installed_success_shape_witness :
  let listed := inr (VDict (coffee_script "1.0.0")) in
  let tree := VDict [("left-pad", VDict [("version", VStr "1.3.0")])] in
  let h1 := host listed (inr tree) (inr VNone) false in
  let h2 := host listed (inr (VStr "npm ERR! 404")) (inr VNone) false in
  let v := npm.mkVars (Some "left-pad") ["coffee-script@1.0.0"] ["left-pad"] in
  let pkgs := Some ["Coffee-Script"; "left-pad"] in
  let args := Dict.set (npm.cmd_args VNone VNone VNone VNone) "pkgs"
                (VList [VStr "Coffee-Script"; VStr "left-pad"]) in
  (__salt__ h1 "npm.list" (npm.list_args VNone VNone VNone) = listed
   /\ for_real h1
   /\ __salt__ h1 "npm.install" args = inr tree
   /\ nonempty_collection tree)
  /\ (__salt__ h2 "npm.list" (npm.list_args VNone VNone VNone) = listed
      /\ for_real h2
      /\ __salt__ h2 "npm.install" args = inr (VStr "npm ERR! 404")
      /\ ~ nonempty_collection (VStr "npm ERR! 404"))
  /\ npm.loop (VBool false) (npm.lower_keys (coffee_script "1.0.0"))
       (npm.working_list "tools" pkgs) (npm.mkVars None [] []) = inr v
  /\ npm.pkgs_to_install v <> []
  /\ npm.install_args pkgs v VNone VNone VNone VNone = inr args
  /\ snd (run (npm.installed "tools" pkgs VNone VNone (VBool false)
                 VNone VNone) h1)
     = inr (record "tools" (VBool true)
              "Package(s) 'left-pad' successfully installed"
              (VDict [("old", VList []); ("new", VList [VStr "left-pad"])]))
  /\ snd (run (npm.installed "tools" pkgs VNone VNone (VBool false)
                 VNone VNone) h2)
     = inr (record "tools" (VBool false)
              "Could not install package(s) 'Coffee-Script, left-pad'"
              (VDict [])).
Proof.
  intros listed tree h1 h2 v pkgs args.
  assert (Hlist1 : __salt__ h1 "npm.list" (npm.list_args VNone VNone VNone)
                   = listed) by reflexivity.
  assert (Hlist2 : __salt__ h2 "npm.list" (npm.list_args VNone VNone VNone)
                   = listed) by reflexivity.
  assert (Hreal1 : for_real h1) by (exists (VBool false); split; reflexivity).
  assert (Hreal2 : for_real h2) by (exists (VBool false); split; reflexivity).
  assert (Hloop : npm.loop (VBool false) (npm.lower_keys (coffee_script "1.0.0"))
                    (npm.working_list "tools" pkgs) (npm.mkVars None [] [])
                  = inr v) by reflexivity.
  assert (Hsome : npm.pkgs_to_install v <> []) by discriminate.
  assert (Hargs : npm.install_args pkgs v VNone VNone VNone VNone = inr args)
    by reflexivity.
  assert (Hcall1 : __salt__ h1 "npm.install" args = inr tree) by reflexivity.
  assert (Hcall2 : __salt__ h2 "npm.install" args = inr (VStr "npm ERR! 404"))
    by reflexivity.
  assert (Hyes : nonempty_collection tree)
    by (right; exists ("left-pad", VDict [("version", VStr "1.3.0")]), [];
        reflexivity).
  assert (Hno : ~ nonempty_collection (VStr "npm ERR! 404"))
    by (intros [(x & l & E) | (kv & d & E)]; discriminate).
  split; [repeat split; assumption |].
  split; [repeat split; assumption |].
  repeat (split; [assumption |]).
  destruct (installed_success_shape h1 "tools" pkgs VNone VNone (VBool false)
              VNone VNone (coffee_script "1.0.0") v args tree
              Hlist1 Hreal1 Hloop Hsome Hargs Hcall1)
    as (_ & r1 & Hrun1 & _ & Hdone & _).
  destruct (installed_success_shape h2 "tools" pkgs VNone VNone (VBool false)
              VNone VNone (coffee_script "1.0.0") v args (VStr "npm ERR! 404")
              Hlist2 Hreal2 Hloop Hsome Hargs Hcall2)
    as (_ & r2 & Hrun2 & _ & _ & Hfail).
  split.
  - rewrite Hrun1. f_equal. exact (Hdone Hyes).
  - rewrite Hrun2. f_equal. exact (Hfail Hno).
Defined.

(** C3 as amended.  The working list is [["coffee-script@1.0.1"]], the
    records are [{"coffee-script": {"version": "1.0.0"}}], [force_reinstall]
    is false and dry-run is off: [npm.install] is invoked, once, after the
    listing; and if it returns a non-empty mapping, [installed] returns
    result=true with changes [{old: [], new: ["coffee-script@1.0.1"]}]. *)
Theorem installed_upgrade_scenario (h : Host) (name : string)
    (pkgs : option (list string)) (dir user registry env : PyVal) :
  npm.working_list name pkgs = ["coffee-script@1.0.1"] ->
  __salt__ h "npm.list" (npm.list_args dir user env)
    = inr (VDict (coffee_script "1.0.0")) ->
  for_real h ->
  exists args,
    fst (run (npm.installed name pkgs dir user (VBool false) registry env) h)
    = [mkCall "npm.list" (npm.list_args dir user env); mkCall "npm.install" args]
    /\ forall kv d,
         __salt__ h "npm.install" args = inr (VDict (kv :: d)) ->
         snd (run (npm.installed name pkgs dir user (VBool false) registry env) h)
         = inr (record name (VBool true)
                  "Package(s) 'coffee-script@1.0.1' successfully installed"
                  (VDict [("old", VList []);
                          ("new", VList [VStr "coffee-script@1.0.1"])])).
Proof.
  intros Hwork Hlist Hreal.
  set (v := npm.mkVars (Some "coffee-script") [] ["coffee-script@1.0.1"]).
  assert (Hloop : npm.loop (VBool false) (npm.lower_keys (coffee_script "1.0.0"))
                    (npm.working_list name pkgs) (npm.mkVars None [] [])
                  = inr v) by (rewrite Hwork; reflexivity).
  assert (Hsome : npm.pkgs_to_install v <> []) by discriminate.
  destruct (npm.install_args pkgs v dir user registry env) as [e|args] eqn:Hargs.
  { destruct pkgs; discriminate. }
  exists args.
  rewrite (installed_reaches_install h name pkgs dir user (VBool false)
             registry env _ v args Hlist Hreal Hloop Hsome Hargs).
  split; [reflexivity |].
  intros kv d Hcall. cbn. rewrite Hcall. reflexivity.
Qed.

Lemma installed_upgrade_scenario_witness :
  let h := host (inr (VDict (coffee_script "1.0.0")))
             (inr (VDict [("coffee-script", VDict [("version", VStr "1.0.1")])]))
             (inr VNone) false in
  npm.working_list "ignored" (Some ["coffee-script@1.0.1"])
    = ["coffee-script@1.0.1"]
  /\ __salt__ h "npm.list" (npm.list_args VNone VNone VNone)
     = inr (VDict (coffee_script "1.0.0"))
  /\ for_real h
  /\ exists args,
       fst (run (npm.installed "ignored" (Some ["coffee-script@1.0.1"]) VNone
                   VNone (VBool false) VNone VNone) h)
       = [mkCall "npm.list" (npm.list_args VNone VNone VNone);
          mkCall "npm.install" args]
       /\ forall kv d,
            __salt__ h "npm.install" args = inr (VDict (kv :: d)) ->
            snd (run (npm.installed "ignored" (Some ["coffee-script@1.0.1"])
                        VNone VNone (VBool false) VNone VNone) h)
            = inr (record "ignored" (VBool true)
                     "Package(s) 'coffee-script@1.0.1' successfully installed"
                     (VDict [("old", VList []);
                             ("new", VList [VStr "coffee-script@1.0.1"])])).
Proof.
  intro h.
  assert (Hwork : npm.working_list "ignored" (Some ["coffee-script@1.0.1"])
                  = ["coffee-script@1.0.1"]) by reflexivity.
  assert (Hlist : __salt__ h "npm.list" (npm.list_args VNone VNone VNone)
                  = inr (VDict (coffee_script "1.0.0"))) by reflexivity.
  assert (Hreal : for_real h) by (exists (VBool false); split; reflexivity).
  repeat (split; [assumption |]).
  exact (installed_upgrade_scenario h "ignored" (Some ["coffee-script@1.0.1"])
           VNone VNone VNone VNone Hwork Hlist Hreal).
Defined.

(** C3 as stated fails twice on the scenario's own input.  Called with
    [name = "coffee-script@1.0.1"], [installed] invokes [npm.install] with
    [pkg="coffee-script"], the version gone, and with nothing else under
    [pkg]; and when [npm.install] returns the mapping [{}], the result is
    false. *)
Lemma installed_upgrade_scenario_counterexample :
  let recs := inr (VDict (coffee_script "1.0.0")) in
  let h1 := host recs (inr (VDict [("coffee-script", VNone)])) (inr VNone) false in
  let h2 := host recs (inr (VDict [])) (inr VNone) false in
  let call h := run (npm.installed "coffee-script@1.0.1" None VNone VNone
                       (VBool false) VNone VNone) h in
  npm.working_list "coffee-script@1.0.1" None = ["coffee-script@1.0.1"]
  /\ fst (call h1)
     = [mkCall "npm.list" [("dir", VNone); ("runas", VNone); ("env", VNone)];
        mkCall "npm.install"
          [("dir", VNone); ("runas", VNone); ("registry", VNone);
           ("env", VNone); ("pkg", VStr "coffee-script")]]
  /\ ~ (exists args,
          In (mkCall "npm.install" args) (fst (call h1))
          /\ Dict.get args "pkg" = Some (VStr "coffee-script@1.0.1"))
  /\ snd (call h2)
     = inr (record "coffee-script@1.0.1" (VBool false)
              "Could not install package(s) 'coffee-script@1.0.1'" (VDict [])).
Proof.
  cbv zeta. split; [reflexivity | split; [reflexivity | split; [| reflexivity]]].
  intros (args & Hin & Hpkg).
  change (In (mkCall "npm.install" args)
            [mkCall "npm.list" [("dir", VNone); ("runas", VNone); ("env", VNone)];
             mkCall "npm.install"
               [("dir", VNone); ("runas", VNone); ("registry", VNone);
                ("env", VNone); ("pkg", VStr "coffee-script")]]) in Hin.
  destruct Hin as [E | [E | []]]; inversion E; subst; discriminate.
Qed.

(** ** The record returned *)

Lemma installed_result_record (h : Host) (name : string)
    (pkgs : option (list string)) (dir user force_reinstall registry env : PyVal)
    (r : dict PyVal) :
  snd (run (npm.installed name pkgs dir user force_reinstall registry env) h)
    = inr r ->
  result_record name r.
Proof.
  run_salt. break_all; try discriminate; record_shape.
Qed.

Lemma removed_result_record (h : Host) (name : string) (dir user : PyVal)
    (r : dict PyVal) :
  snd (run (npm.removed name dir user) h) = inr r -> result_record name r.
Proof.
  run_salt. break_all; try discriminate; record_shape.
Qed.

Lemma bootstrap_result_record (h : Host) (name : string) (user : PyVal)
    (r : dict PyVal) :
  snd (run (npm.bootstrap name user) h) = inr r -> result_record name r.
Proof.
  run_salt. break_all; try discriminate; record_shape.
Qed.

(** C10. Whatever [installed], [removed] and [bootstrap] return, on every
    path that returns, is a mapping with exactly the keys [name], [result],
    [comment] and [changes], whose [name] is the [name] argument and whose
    [result] is true, false or null. *)
Theorem returns_result_record (h : Host) (name : string)
    (pkgs : option (list string)) (dir user force_reinstall registry env : PyVal)
    (r : dict PyVal) :
  (snd (run (npm.installed name pkgs dir user force_reinstall registry env) h)
     = inr r -> result_record name r)
  /\ (snd (run (npm.removed name dir user) h) = inr r -> result_record name r)
  /\ (snd (run (npm.bootstrap name user) h) = inr r -> result_record name r).
Proof.
  split; [apply installed_result_record |
    split; [apply removed_result_record | apply bootstrap_result_record]].
Qed.

Lemma returns_result_record_witness :
  let h := host (inr (VDict (coffee_script "1.0.0"))) (inr VNone)
             (inr (VBool true)) false in
  let r := record "coffee-script" (VBool true)
             "Package 'coffee-script' was successfully removed"
             (VDict [("coffee-script", VStr "Removed")]) in
  snd (run (npm.removed "coffee-script" VNone VNone) h) = inr r
  /\ result_record "coffee-script" r.
Proof.
  intros h r.
  assert (Hrun : snd (run (npm.removed "coffee-script" VNone VNone) h) = inr r)
    by reflexivity.
  split; [exact Hrun |].
  exact (proj1 (proj2 (returns_result_record h "coffee-script" None VNone VNone
                         (VBool false) VNone VNone r)) Hrun).
Defined.

(** ** Dry-run *)

(** Under dry-run [installed] makes the listing call and no other, and once
    the listing is in hand its result is null. *)
Lemma installed_dry_run (h : Host) (name : string) (pkgs : option (list string))
    (dir user force_reinstall registry env : PyVal) :
  dry_run h ->
  existsb mutating
    (fst (run (npm.installed name pkgs dir user force_reinstall registry env) h))
  = false
  /\ forall listed r,
       __salt__ h "npm.list" (npm.list_args dir user env) = inr listed ->
       snd (run (npm.installed name pkgs dir user force_reinstall registry env) h)
       = inr r ->
       Dict.get r "result" = Some VNone.
Proof.
  intros (t & Ht & Hon). split.
  - run_salt.
    destruct (__salt__ h "npm.list" _) as [e|listed]; cbn;
      [destruct e; reflexivity |].
    destruct (Py.items listed); cbn; [reflexivity |].
    destruct (npm.loop _ _ _ _); cbn; [reflexivity |].
    rewrite Ht. cbn. rewrite Hon. reflexivity.
  - intros listed r Hlist. run_salt. rewrite Hlist. cbn.
    destruct (Py.items listed); cbn; [discriminate |].
    destruct (npm.loop _ _ _ _); cbn; [discriminate |].
    rewrite Ht. cbn. rewrite Hon.
    break_all; intros H; inversion H; reflexivity.
Qed.

(** Under dry-run [removed] makes the listing call and no other, and a name
    that is recorded gets result null. *)
Lemma removed_dry_run (h : Host) (name : string) (dir user : PyVal) :
  dry_run h ->
  existsb mutating (fst (run (npm.removed name dir user) h)) = false
  /\ forall recs,
       __salt__ h "npm.list" [("dir", dir)] = inr (VDict recs) ->
       In name (Dict.keys recs) ->
       snd (run (npm.removed name dir user) h)
       = inr (record name VNone
                ("Package " ++ PyStr.repr name ++ " is set to be removed")
                (VDict [])).
Proof.
  intros (t & Ht & Hon). split.
  - run_salt.
    destruct (__salt__ h "npm.list" _) as [e|listed]; cbn;
      [destruct e; reflexivity |].
    destruct (Py.contains listed name) as [e|[|]]; cbn; try reflexivity.
    rewrite Ht. cbn. rewrite Hon. reflexivity.
  - intros recs Hlist Hin. apply mem_keys in Hin.
    run_salt. rewrite Hlist. cbn. rewrite Hin. cbn. rewrite Ht. cbn.
    rewrite Hon. reflexivity.
Qed.

(** C1, where the code departs from it.  [bootstrap] never reads
    [__opts__]: with the dry-run flag set it calls [npm.install] all the
    same and reports the directory bootstrapped, result true, with a
    change. *)
Theorem bootstrap_dry_run_invokes_install :
  let h := host (inr VNone)
             (inr (VDict [("express", VDict [("version", VStr "4.0.0")])]))
             (inr VNone) true in
  dry_run h
  /\ run (npm.bootstrap "/proj" VNone) h
     = ([mkCall "npm.install"
           [("dir", VStr "/proj"); ("runas", VNone); ("pkg", VNone)]],
        inr (record "/proj" (VBool true) "Directory was successfully bootstrapped"
               (VDict [("/proj", VStr "Bootstrapped")])))
  /\ existsb mutating (fst (run (npm.bootstrap "/proj" VNone) h)) = true.
Proof.
  cbv zeta. split; [| split; reflexivity].
  exists (VBool true). split; reflexivity.
Qed.

(** ** Failures of the capabilities *)

Lemma installed_list_error (h : Host) (name : string) (pkgs : option (list string))
    (dir user force_reinstall registry env : PyVal) (e : exn) (msg : string) :
  __salt__ h "npm.list" (npm.list_args dir user env) = inl e ->
  salt_error e msg ->
  snd (run (npm.installed name pkgs dir user force_reinstall registry env) h)
  = inr (record name (VBool false)
           ("Error looking up " ++ PyStr.repr name ++ ": " ++ msg) (VDict [])).
Proof.
  intros Hlist [-> | ->]; run_salt; rewrite Hlist; reflexivity.
Qed.

Lemma installed_install_error (h : Host) (name : string)
    (pkgs : option (list string)) (dir user force_reinstall registry env : PyVal)
    (recs : dict PyVal) (v : npm.loop_vars) (args : dict PyVal)
    (e : exn) (msg : string) :
  __salt__ h "npm.list" (npm.list_args dir user env) = inr (VDict recs) ->
  for_real h ->
  npm.loop force_reinstall (npm.lower_keys recs) (npm.working_list name pkgs)
    (npm.mkVars None [] []) = inr v ->
  npm.pkgs_to_install v <> [] ->
  npm.install_args pkgs v dir user registry env = inr args ->
  __salt__ h "npm.install" args = inl e ->
  salt_error e msg ->
  snd (run (npm.installed name pkgs dir user force_reinstall registry env) h)
  = inr (record name (VBool false)
           ("Error installing "
              ++ PyStr.repr (PyStr.join ", " (npm.working_list name pkgs))
              ++ ": " ++ msg) (VDict [])).
Proof.
  intros Hlist Hreal Hloop Hsome Hargs Hcall Herr.
  rewrite (installed_reaches_install h name pkgs dir user force_reinstall
             registry env recs v args Hlist Hreal Hloop Hsome Hargs).
  rewrite Hcall. destruct Herr as [-> | ->]; reflexivity.
Qed.

Lemma removed_list_error (h : Host) (name : string) (dir user : PyVal)
    (e : exn) (msg : string) :
  __salt__ h "npm.list" [("dir", dir)] = inl e ->
  salt_error e msg ->
  snd (run (npm.removed name dir user) h)
  = inr (record name (VBool false)
           ("Error uninstalling " ++ PyStr.repr name ++ ": " ++ msg) (VDict [])).
Proof.
  intros Hlist [-> | ->]; run_salt; rewrite Hlist; reflexivity.
Qed.

Lemma bootstrap_install_error (h : Host) (name : string) (user : PyVal)
    (e : exn) (msg : string) :
  __salt__ h "npm.install" [("dir", VStr name); ("runas", user); ("pkg", VNone)]
    = inl e ->
  salt_error e msg ->
  snd (run (npm.bootstrap name user) h)
  = inr (record name (VBool false)
           ("Error Bootstrapping " ++ PyStr.repr name ++ ": " ++ msg) (VDict [])).
Proof.
  intros Hcall [-> | ->]; run_salt; rewrite Hcall; reflexivity.
Qed.

(** The call of [npm.uninstall] in [removed] stands outside any [try]:
    whatever it raises leaves [removed] as it is. *)
Lemma removed_uninstall_raises (h : Host) (name : string) (dir user : PyVal)
    (recs : dict PyVal) (e : exn) :
  __salt__ h "npm.list" [("dir", dir)] = inr (VDict recs) ->
  In name (Dict.keys recs) ->
  for_real h ->
  __salt__ h "npm.uninstall" [("pkg", VStr name); ("dir", dir); ("runas", user)]
    = inl e ->
  snd (run (npm.removed name dir user) h) = inl e.
Proof.
  intros Hlist Hin (t & Ht & Hoff) Hcall. apply mem_keys in Hin.
  run_salt. rewrite Hlist. cbn. rewrite Hin. cbn. rewrite Ht. cbn.
  rewrite Hoff, Hcall. reflexivity.
Qed.

(** C5, where the code departs from it.  [npm.uninstall] raises
    [CommandExecutionError] (the user to run npm as does not exist): [removed]
    returns no record, the error reaches its caller. *)
Theorem removed_uninstall_error_propagates :
  let h := host (inr (VDict (coffee_script "1.0.0"))) (inr VNone)
             (inl (CommandExecutionError "User 'node' is not available"))
             false in
  run (npm.removed "coffee-script" VNone (VStr "node")) h
  = ([mkCall "npm.list" [("dir", VNone)];
      mkCall "npm.uninstall"
        [("pkg", VStr "coffee-script"); ("dir", VNone); ("runas", VStr "node")]],
     inl (CommandExecutionError "User 'node' is not available")).
Proof. reflexivity. Qed.

(** * Further properties of the module *)

(** ** The loop of [installed] as a classification *)

Lemma loop_body_classifies (fr : PyVal) (inst : dict PyVal) (v : npm.loop_vars)
    (pkg : string) :
  Py.is_True fr = true \/ versioned inst pkg ->
  npm.loop_body fr inst v pkg
  = inr (if needs_install fr inst pkg
         then npm.to_install v (npm.spec_name pkg) pkg
         else npm.satisfied v (npm.spec_name pkg) (name_ver inst pkg)).
Proof.
  unfold npm.loop_body, needs_install, recorded_version, name_ver. cbn.
  destruct (Py.is_True fr) eqn:Hfr; cbn; [reflexivity |].
  intros [Hforce | Hvers]; [discriminate |].
  destruct (Dict.mem (npm.spec_name pkg) inst) eqn:Hmem; cbn; [| reflexivity].
  destruct (Hvers Hmem) as (info & ver & Hget & Hver).
  rewrite Hget. cbn. rewrite Hver. cbn.
  destruct (String.eqb (npm.spec_ver pkg) ""); cbn; [reflexivity |].
  destruct (Py.eq_str ver (npm.spec_ver pkg)); reflexivity.
Qed.

Lemma loop_classifies_from (fr : PyVal) (inst : dict PyVal) (l : list string) :
  Py.is_True fr = true \/ Forall (versioned inst) l ->
  forall v0, exists v,
    npm.loop fr inst l v0 = inr v
    /\ npm.pkgs_to_install v
       = (npm.pkgs_to_install v0 ++ filter (needs_install fr inst) l)%list
    /\ npm.pkgs_satisfied v
       = (npm.pkgs_satisfied v0
            ++ map (name_ver inst)
                 (filter (fun p => negb (needs_install fr inst p)) l))%list.
Proof.
  induction l as [|pkg l IH]; intros Hok v0.
  - exists v0. cbn. now rewrite !app_nil_r.
  - assert (Hpkg : Py.is_True fr = true \/ versioned inst pkg)
      by (destruct Hok as [H | H]; [now left | right; now inversion H]).
    assert (Hrest : Py.is_True fr = true \/ Forall (versioned inst) l)
      by (destruct Hok as [H | H]; [now left | right; now inversion H]).
    unfold npm.loop; fold npm.loop.
    rewrite (loop_body_classifies fr inst v0 pkg Hpkg).
    destruct (needs_install fr inst pkg) eqn:Hneed.
    + destruct (IH Hrest (npm.to_install v0 (npm.spec_name pkg) pkg))
        as (v & Hv & Hi & Hs).
      exists v. cbn. rewrite Hneed. cbn. rewrite Hv, Hi, Hs. cbn.
      now rewrite <- app_assoc.
    + destruct (IH Hrest (npm.satisfied v0 (npm.spec_name pkg) (name_ver inst pkg)))
        as (v & Hv & Hi & Hs).
      exists v. cbn. rewrite Hneed. cbn. rewrite Hv, Hi, Hs. cbn.
      now rewrite <- app_assoc.
Qed.

(** X1. The loop of [installed] sorts the working list in two, keeping its
    order: the specs to install are those that [force_reinstall is True],
    an unrecorded name or a declared version other than the recorded one
    selects, and every other spec is entered as satisfied under the
    recorded [name@version].  It completes whenever [force_reinstall] is
    [True] or every recorded package named carries a version. *)
Theorem loop_classifies (fr : PyVal) (inst : dict PyVal) (l : list string) :
  Py.is_True fr = true \/ Forall (versioned inst) l ->
  exists v,
    npm.loop fr inst l (npm.mkVars None [] []) = inr v
    /\ npm.pkgs_to_install v = filter (needs_install fr inst) l
    /\ npm.pkgs_satisfied v
       = map (name_ver inst) (filter (fun p => negb (needs_install fr inst p)) l).
Proof.
  intros Hok.
  destruct (loop_classifies_from fr inst l Hok (npm.mkVars None [] []))
    as (v & Hv & Hi & Hs).
  exists v. now repeat split.
Qed.

Lemma loop_classifies_witness :
  let inst := npm.lower_keys
                [("Coffee-Script", VDict [("version", VStr "1.0.0")]);
                 ("express", VDict [("version", VStr "4.0.0")])] in
  let l := ["coffee-script@1.0.1"; "Express"; "left-pad@1.3.0"; "express@4.0.0"] in
  Forall (versioned inst) l
  /\ exists v,
       npm.loop (VBool false) inst l (npm.mkVars None [] []) = inr v
       /\ npm.pkgs_to_install v = ["coffee-script@1.0.1"; "left-pad@1.3.0"]
       /\ npm.pkgs_satisfied v = ["express@4.0.0"; "express@4.0.0"].
Proof.
  intros inst l.
  assert (Hv : Forall (versioned inst) l).
  { repeat constructor; intros Hmem; try discriminate.
    - exists [("version", VStr "1.0.0")], (VStr "1.0.0"). split; reflexivity.
    - exists [("version", VStr "4.0.0")], (VStr "4.0.0"). split; reflexivity.
    - exists [("version", VStr "4.0.0")], (VStr "4.0.0"). split; reflexivity. }
  split; [exact Hv |].
  exact (loop_classifies (VBool false) inst l (or_intror Hv)).
Defined.

(** ** [installed]: what is passed to [npm.install] *)

(** The arguments of [npm.install] can always be built once something is to
    be installed: [pkg_name] is bound by then. *)
Lemma install_args_defined (fr : PyVal) (inst : dict PyVal) (name : string)
    (pkgs : option (list string)) (v : npm.loop_vars)
    (dir user registry env : PyVal) :
  npm.loop fr inst (npm.working_list name pkgs) (npm.mkVars None [] []) = inr v ->
  exists args, npm.install_args pkgs v dir user registry env = inr args.
Proof.
  intros Hloop. unfold npm.install_args. destruct pkgs as [l|]; [eauto |].
  rewrite (loop_single_pkg_name fr inst v name Hloop). eauto.
Qed.

Lemma filter_forced (inst : dict PyVal) (l : list string) :
  filter (needs_install (VBool true) inst) l = l.
Proof.
  induction l as [|p l IH]; [reflexivity |]. cbn. now rewrite IH.
Qed.

(** X2. With [force_reinstall=True], dry-run off and a working list that is
    not empty, [installed] invokes [npm.install] whatever the records say
    (be they without versions), and when that returns a non-empty list or
    mapping the changes report the whole working list as new. *)
Theorem installed_force_reinstall (h : Host) (name : string)
    (pkgs : option (list string)) (dir user registry env : PyVal)
    (recs : dict PyVal) :
  __salt__ h "npm.list" (npm.list_args dir user env) = inr (VDict recs) ->
  for_real h ->
  npm.working_list name pkgs <> [] ->
  exists args,
    fst (run (npm.installed name pkgs dir user (VBool true) registry env) h)
    = [mkCall "npm.list" (npm.list_args dir user env); mkCall "npm.install" args]
    /\ forall call,
         __salt__ h "npm.install" args = inr call ->
         nonempty_collection call ->
         snd (run (npm.installed name pkgs dir user (VBool true) registry env) h)
         = inr (record name (VBool true)
                  ("Package(s) "
                     ++ PyStr.repr (PyStr.join ", " (npm.working_list name pkgs))
                     ++ " successfully installed")
                  (npm.old_new (npm.working_list name pkgs))).
Proof.
  intros Hlist Hreal Hne.
  destruct (loop_classifies_from (VBool true) (npm.lower_keys recs)
              (npm.working_list name pkgs) (or_introl eq_refl)
              (npm.mkVars None [] []))
    as (v & Hloop & Hinst & _).
  cbn in Hinst. rewrite filter_forced in Hinst.
  assert (Hsome : npm.pkgs_to_install v <> []) by now rewrite Hinst.
  destruct (install_args_defined _ _ _ _ _ dir user registry env Hloop)
    as [args Hargs].
  exists args.
  rewrite (installed_reaches_install h name pkgs dir user (VBool true)
             registry env recs v args Hlist Hreal Hloop Hsome Hargs).
  split; [reflexivity |].
  intros call Hcall Hshape. cbn. rewrite Hcall.
  apply truthy_collection in Hshape. rewrite Hshape, Hinst. reflexivity.
Qed.

Lemma installed_force_reinstall_witness :
  let h := host (inr (VDict [("coffee-script", VDict [("missing", VBool true)])]))
             (inr (VList [VStr "coffee-script@1.0.1"])) (inr VNone) false in
  __salt__ h "npm.list" (npm.list_args VNone VNone VNone)
    = inr (VDict [("coffee-script", VDict [("missing", VBool true)])])
  /\ for_real h
  /\ npm.working_list "coffee-script" None <> []
  /\ exists args,
       fst (run (npm.installed "coffee-script" None VNone VNone (VBool true)
                   VNone VNone) h)
       = [mkCall "npm.list" (npm.list_args VNone VNone VNone);
          mkCall "npm.install" args]
       /\ forall call,
            __salt__ h "npm.install" args = inr call ->
            nonempty_collection call ->
            snd (run (npm.installed "coffee-script" None VNone VNone (VBool true)
                        VNone VNone) h)
            = inr (record "coffee-script" (VBool true)
                     "Package(s) 'coffee-script' successfully installed"
                     (VDict [("old", VList []);
                             ("new", VList [VStr "coffee-script"])])).
Proof.
  intro h.
  assert (Hlist : __salt__ h "npm.list" (npm.list_args VNone VNone VNone)
                  = inr (VDict [("coffee-script",
                                 VDict [("missing", VBool true)])]))
    by reflexivity.
  assert (Hreal : for_real h) by (exists (VBool false); split; reflexivity).
  assert (Hne : npm.working_list "coffee-script" None <> []) by discriminate.
  repeat (split; [assumption |]).
  exact (installed_force_reinstall h "coffee-script" None VNone VNone VNone VNone
           _ Hlist Hreal Hne).
Defined.

(** X3. When [pkgs] is given and something is to be installed, [npm.install]
    is called with [pkgs] as it was given, the specs found satisfied
    included, and with no [pkg] argument. *)
Theorem installed_passes_pkgs_whole (h : Host) (name : string) (l : list string)
    (dir user force_reinstall registry env : PyVal)
    (recs : dict PyVal) (v : npm.loop_vars) :
  __salt__ h "npm.list" (npm.list_args dir user env) = inr (VDict recs) ->
  for_real h ->
  npm.loop force_reinstall (npm.lower_keys recs) l (npm.mkVars None [] [])
    = inr v ->
  npm.pkgs_to_install v <> [] ->
  fst (run (npm.installed name (Some l) dir user force_reinstall registry env) h)
  = [mkCall "npm.list" [("dir", dir); ("runas", user); ("env", env)];
     mkCall "npm.install"
       [("dir", dir); ("runas", user); ("registry", registry); ("env", env);
        ("pkgs", VList (map VStr l))]].
Proof.
  intros Hlist Hreal Hloop Hsome.
  now rewrite (installed_reaches_install h name (Some l) dir user force_reinstall
                 registry env recs v _ Hlist Hreal Hloop Hsome eq_refl).
Qed.

Lemma installed_passes_pkgs_whole_witness :
  let h := host (inr (VDict (coffee_script "1.0.0"))) (inr VNone) (inr VNone)
             false in
  let l := ["coffee-script"; "left-pad"] in
  let v := npm.mkVars (Some "left-pad") ["coffee-script@1.0.0"] ["left-pad"] in
  __salt__ h "npm.list" (npm.list_args VNone VNone VNone)
    = inr (VDict (coffee_script "1.0.0"))
  /\ for_real h
  /\ npm.loop (VBool false) (npm.lower_keys (coffee_script "1.0.0")) l
       (npm.mkVars None [] []) = inr v
  /\ npm.pkgs_to_install v <> []
  /\ fst (run (npm.installed "tools" (Some l) VNone VNone (VBool false)
                 VNone VNone) h)
     = [mkCall "npm.list" [("dir", VNone); ("runas", VNone); ("env", VNone)];
        mkCall "npm.install"
          [("dir", VNone); ("runas", VNone); ("registry", VNone); ("env", VNone);
           ("pkgs", VList [VStr "coffee-script"; VStr "left-pad"])]].
Proof.
  intros h l v.
  assert (Hlist : __salt__ h "npm.list" (npm.list_args VNone VNone VNone)
                  = inr (VDict (coffee_script "1.0.0"))) by reflexivity.
  assert (Hreal : for_real h) by (exists (VBool false); split; reflexivity).
  assert (Hloop : npm.loop (VBool false) (npm.lower_keys (coffee_script "1.0.0"))
                    l (npm.mkVars None [] []) = inr v) by reflexivity.
  assert (Hsome : npm.pkgs_to_install v <> []) by discriminate.
  repeat (split; [assumption |]).
  exact (installed_passes_pkgs_whole h "tools" l VNone VNone (VBool false)
           VNone VNone _ v Hlist Hreal Hloop Hsome).
Defined.

(** ** [installed] under dry-run *)

(** X4. Under dry-run, once the listing is in hand and the loop is through,
    [installed] returns result null after the listing call alone; its changes
    are [{old: [], new: to-install}] when something is to be installed and
    empty otherwise, and its comment joins with ". " the sentence on what is
    to be installed and the sentence on what is satisfied, each present only
    when its list is not empty. *)
Theorem installed_dry_run_report (h : Host) (name : string)
    (pkgs : option (list string)) (dir user force_reinstall registry env : PyVal)
    (recs : dict PyVal) (v : npm.loop_vars) :
  __salt__ h "npm.list" (npm.list_args dir user env) = inr (VDict recs) ->
  dry_run h ->
  npm.loop force_reinstall (npm.lower_keys recs) (npm.working_list name pkgs)
    (npm.mkVars None [] []) = inr v ->
  run (npm.installed name pkgs dir user force_reinstall registry env) h
  = ([mkCall "npm.list" (npm.list_args dir user env)],
     inr (record name VNone
            (PyStr.join ". "
               (List.app
                  (match npm.pkgs_to_install v with
                   | [] => []
                   | _ => ["NPM package(s) "
                             ++ PyStr.repr (PyStr.join ", " (npm.pkgs_to_install v))
                             ++ " are set to be installed"]
                   end)
                  (match npm.pkgs_satisfied v with
                   | [] => []
                   | _ => [npm.satisfied_msg (npm.working_list name pkgs)
                             (npm.pkgs_satisfied v)]
                   end)))
            (match npm.pkgs_to_install v with
             | [] => VDict []
             | _ => npm.old_new (npm.pkgs_to_install v)
             end))).
Proof.
  intros Hlist (t & Ht & Hon) Hloop.
  run_salt. rewrite Hlist. cbn. rewrite Hloop. cbn. rewrite Ht. cbn.
  rewrite Hon.
  destruct (npm.pkgs_to_install v), (npm.pkgs_satisfied v); reflexivity.
Qed.

Lemma installed_dry_run_report_witness :
  let h := host (inr (VDict (coffee_script "1.0.0"))) (inr VNone) (inr VNone)
             true in
  let l := ["coffee-script"; "left-pad"] in
  let v := npm.mkVars (Some "left-pad") ["coffee-script@1.0.0"] ["left-pad"] in
  __salt__ h "npm.list" (npm.list_args VNone VNone VNone)
    = inr (VDict (coffee_script "1.0.0"))
  /\ dry_run h
  /\ npm.loop (VBool false) (npm.lower_keys (coffee_script "1.0.0"))
       (npm.working_list "tools" (Some l)) (npm.mkVars None [] []) = inr v
  /\ run (npm.installed "tools" (Some l) VNone VNone (VBool false) VNone VNone) h
     = ([mkCall "npm.list" (npm.list_args VNone VNone VNone)],
        inr (record "tools" VNone
               ("NPM package(s) 'left-pad' are set to be installed. "
                  ++ "Package(s) 'coffee-script, left-pad' satisfied by "
                  ++ "coffee-script@1.0.0")
               (VDict [("old", VList []); ("new", VList [VStr "left-pad"])]))).
Proof.
  intros h l v.
  assert (Hlist : __salt__ h "npm.list" (npm.list_args VNone VNone VNone)
                  = inr (VDict (coffee_script "1.0.0"))) by reflexivity.
  assert (Hdry : dry_run h) by (exists (VBool true); split; reflexivity).
  assert (Hloop : npm.loop (VBool false) (npm.lower_keys (coffee_script "1.0.0"))
                    (npm.working_list "tools" (Some l)) (npm.mkVars None [] [])
                  = inr v) by reflexivity.
  repeat (split; [assumption |]).
  exact (installed_dry_run_report h "tools" (Some l) VNone VNone (VBool false)
           VNone VNone _ v Hlist Hdry Hloop).
Defined.

(** ** Failures *)

(** X5. When [npm.list] fails with one of the two kinds [installed] catches,
    [installed] stops there: result false, the comment "Error looking up
    <name>: <error text>", no changes, and no other call, dry-run or not. *)
Theorem installed_listing_failure (h : Host) (name : string)
    (pkgs : option (list string)) (dir user force_reinstall registry env : PyVal)
    (e : exn) (msg : string) :
  __salt__ h "npm.list" (npm.list_args dir user env) = inl e ->
  salt_error e msg ->
  run (npm.installed name pkgs dir user force_reinstall registry env) h
  = ([mkCall "npm.list" (npm.list_args dir user env)],
     inr (record name (VBool false)
            ("Error looking up " ++ PyStr.repr name ++ ": " ++ msg) (VDict []))).
Proof.
  intros Hlist [-> | ->]; run_salt; rewrite Hlist; reflexivity.
Qed.

Lemma installed_listing_failure_witness :
  let h := host (inl (CommandNotFoundError "npm: command not found"))
             (inr VNone) (inr VNone) true in
  __salt__ h "npm.list" (npm.list_args VNone VNone VNone)
    = inl (CommandNotFoundError "npm: command not found")
  /\ salt_error (CommandNotFoundError "npm: command not found")
       "npm: command not found"
  /\ run (npm.installed "grunt" None VNone VNone (VBool false) VNone VNone) h
     = ([mkCall "npm.list" (npm.list_args VNone VNone VNone)],
        inr (record "grunt" (VBool false)
               "Error looking up 'grunt': npm: command not found" (VDict []))).
Proof.
  intro h.
  assert (Hlist : __salt__ h "npm.list" (npm.list_args VNone VNone VNone)
                  = inl (CommandNotFoundError "npm: command not found"))
    by reflexivity.
  assert (Herr : salt_error (CommandNotFoundError "npm: command not found")
                   "npm: command not found") by (left; reflexivity).
  repeat (split; [assumption |]).
  exact (installed_listing_failure h "grunt" None VNone VNone (VBool false)
           VNone VNone _ _ Hlist Herr).
Defined.

(** X6. When [npm.install] fails with one of the two kinds, [installed]
    returns result false with the comment "Error installing <working list>:
    <error text>" and no changes, nothing being reported as installed. *)
Theorem installed_install_failure (h : Host) (name : string)
    (pkgs : option (list string)) (dir user force_reinstall registry env : PyVal)
    (recs : dict PyVal) (v : npm.loop_vars) (args : dict PyVal)
    (e : exn) (msg : string) :
  __salt__ h "npm.list" (npm.list_args dir user env) = inr (VDict recs) ->
  for_real h ->
  npm.loop force_reinstall (npm.lower_keys recs) (npm.working_list name pkgs)
    (npm.mkVars None [] []) = inr v ->
  npm.pkgs_to_install v <> [] ->
  npm.install_args pkgs v dir user registry env = inr args ->
  __salt__ h "npm.install" args = inl e ->
  salt_error e msg ->
  run (npm.installed name pkgs dir user force_reinstall registry env) h
  = ([mkCall "npm.list" (npm.list_args dir user env); mkCall "npm.install" args],
     inr (record name (VBool false)
            ("Error installing "
               ++ PyStr.repr (PyStr.join ", " (npm.working_list name pkgs))
               ++ ": " ++ msg) (VDict []))).
Proof.
  intros Hlist Hreal Hloop Hsome Hargs Hcall Herr.
  rewrite (installed_reaches_install h name pkgs dir user force_reinstall
             registry env recs v args Hlist Hreal Hloop Hsome Hargs).
  rewrite Hcall. destruct Herr as [-> | ->]; reflexivity.
Qed.

Lemma installed_install_failure_witness :
  let h := host (inr (VDict [])) (inl (CommandExecutionError "E404 left-pad"))
             (inr VNone) false in
  let v := npm.mkVars (Some "left-pad") [] ["left-pad"] in
  let args := Dict.set (npm.cmd_args VNone VNone VNone VNone) "pkg"
                (VStr "left-pad") in
  __salt__ h "npm.list" (npm.list_args VNone VNone VNone) = inr (VDict [])
  /\ for_real h
  /\ npm.loop (VBool false) (npm.lower_keys []) (npm.working_list "left-pad" None)
       (npm.mkVars None [] []) = inr v
  /\ npm.pkgs_to_install v <> []
  /\ npm.install_args None v VNone VNone VNone VNone = inr args
  /\ __salt__ h "npm.install" args = inl (CommandExecutionError "E404 left-pad")
  /\ salt_error (CommandExecutionError "E404 left-pad") "E404 left-pad"
  /\ run (npm.installed "left-pad" None VNone VNone (VBool false) VNone VNone) h
     = ([mkCall "npm.list" (npm.list_args VNone VNone VNone);
         mkCall "npm.install" args],
        inr (record "left-pad" (VBool false)
               "Error installing 'left-pad': E404 left-pad" (VDict []))).
Proof.
  intros h v args.
  assert (Hlist : __salt__ h "npm.list" (npm.list_args VNone VNone VNone)
                  = inr (VDict [])) by reflexivity.
  assert (Hreal : for_real h) by (exists (VBool false); split; reflexivity).
  assert (Hloop : npm.loop (VBool false) (npm.lower_keys [])
                    (npm.working_list "left-pad" None) (npm.mkVars None [] [])
                  = inr v) by reflexivity.
  assert (Hsome : npm.pkgs_to_install v <> []) by discriminate.
  assert (Hargs : npm.install_args None v VNone VNone VNone VNone = inr args)
    by reflexivity.
  assert (Hcall : __salt__ h "npm.install" args
                  = inl (CommandExecutionError "E404 left-pad")) by reflexivity.
  assert (Herr : salt_error (CommandExecutionError "E404 left-pad")
                   "E404 left-pad") by (right; reflexivity).
  repeat (split; [assumption |]).
  exact (installed_install_failure h "left-pad" None VNone VNone (VBool false)
           VNone VNone _ v args _ _ Hlist Hreal Hloop Hsome Hargs Hcall Herr).
Defined.

Lemma foreign_cases (e : exn) :
  foreign e ->
  match e with
  | CommandNotFoundError _ | CommandExecutionError _ => False
  | _ => True
  end.
Proof.
  intros Hf. destruct e; try exact I.
  - apply (Hf msg). now left.
  - apply (Hf msg). now right.
Qed.

(** X7. An exception of any other class raised by the first call of a state
    function - [npm.list] in [installed] and [removed], [npm.install] in
    [bootstrap] - is not caught: the function ends with that exception,
    having made that one call. *)
Theorem foreign_exception_propagates (h : Host) (name : string)
    (pkgs : option (list string)) (dir user force_reinstall registry env : PyVal)
    (e : exn) :
  foreign e ->
  (__salt__ h "npm.list" (npm.list_args dir user env) = inl e ->
   run (npm.installed name pkgs dir user force_reinstall registry env) h
   = ([mkCall "npm.list" (npm.list_args dir user env)], inl e))
  /\ (__salt__ h "npm.list" [("dir", dir)] = inl e ->
      run (npm.removed name dir user) h
      = ([mkCall "npm.list" [("dir", dir)]], inl e))
  /\ (__salt__ h "npm.install"
        [("dir", VStr name); ("runas", user); ("pkg", VNone)] = inl e ->
      run (npm.bootstrap name user) h
      = ([mkCall "npm.install"
            [("dir", VStr name); ("runas", user); ("pkg", VNone)]], inl e)).
Proof.
  intros Hf. apply foreign_cases in Hf.
  repeat split; intros Hcall; run_salt; rewrite Hcall;
    destruct e; try contradiction; reflexivity.
Qed.

Lemma foreign_exception_propagates_witness :
  let e := OtherError "OSError" "[Errno 13] Permission denied" in
  let h := host (inl e) (inl e) (inr VNone) false in
  foreign e
  /\ __salt__ h "npm.list" [("dir", VNone)] = inl e
  /\ run (npm.removed "grunt" VNone VNone) h
     = ([mkCall "npm.list" [("dir", VNone)]], inl e).
Proof.
  intros e h.
  assert (Hf : foreign e) by (intros msg [H | H]; discriminate).
  assert (Hcall : __salt__ h "npm.list" [("dir", VNone)] = inl e) by reflexivity.
  repeat (split; [assumption |]).
  exact (proj1 (proj2 (foreign_exception_propagates h "grunt" None VNone VNone
                         (VBool false) VNone VNone e Hf)) Hcall).
Defined.

(** X8. A recorded package whose record is a mapping without [version] makes
    [installed] end with [KeyError('version')] as soon as the loop reaches a
    spec naming it ([force_reinstall] not being [True]): after the listing
    call, before the dry-run flag is read, whether the spec declares a
    version or not. *)
Theorem installed_record_lacks_version (h : Host) (name : string)
    (pkgs : option (list string)) (dir user force_reinstall registry env : PyVal)
    (recs info : dict PyVal) (pkg : string) (rest : list string) :
  __salt__ h "npm.list" (npm.list_args dir user env) = inr (VDict recs) ->
  Py.is_True force_reinstall = false ->
  npm.working_list name pkgs = pkg :: rest ->
  Dict.get (npm.lower_keys recs) (npm.spec_name pkg) = Some (VDict info) ->
  Dict.get info "version" = None ->
  run (npm.installed name pkgs dir user force_reinstall registry env) h
  = ([mkCall "npm.list" (npm.list_args dir user env)], inl (KeyError "version")).
Proof.
  intros Hlist Hfr Hwork Hget Hver.
  assert (Hmem : Dict.mem (npm.spec_name pkg) (npm.lower_keys recs) = true)
    by (apply mem_get; eauto).
  assert (Hloop : npm.loop force_reinstall (npm.lower_keys recs)
                    (npm.working_list name pkgs) (npm.mkVars None [] [])
                  = inl (KeyError "version")).
  { rewrite Hwork. unfold npm.loop, npm.loop_body. cbn.
    rewrite Hfr, Hmem. cbn. rewrite Hget. cbn. rewrite Hver. reflexivity. }
  run_salt. rewrite Hlist. cbn. rewrite Hloop. reflexivity.
Qed.

Lemma installed_record_lacks_version_witness :
  let recs := [("Coffee-Script", VDict [("required", VStr "~1.0");
                                        ("missing", VBool true)])] in
  let h := host (inr (VDict recs)) (inr VNone) (inr VNone) true in
  __salt__ h "npm.list" (npm.list_args VNone VNone VNone) = inr (VDict recs)
  /\ Py.is_True (VInt 1) = false
  /\ npm.working_list "coffee-script" None = ["coffee-script"]
  /\ Dict.get (npm.lower_keys recs) (npm.spec_name "coffee-script")
     = Some (VDict [("required", VStr "~1.0"); ("missing", VBool true)])
  /\ Dict.get [("required", VStr "~1.0"); ("missing", VBool true)] "version"
     = None
  /\ run (npm.installed "coffee-script" None VNone VNone (VInt 1) VNone VNone) h
     = ([mkCall "npm.list" (npm.list_args VNone VNone VNone)],
        inl (KeyError "version")).
Proof.
  intros recs h.
  assert (Hlist : __salt__ h "npm.list" (npm.list_args VNone VNone VNone)
                  = inr (VDict recs)) by reflexivity.
  assert (Hfr : Py.is_True (VInt 1) = false) by reflexivity.
  assert (Hwork : npm.working_list "coffee-script" None = ["coffee-script"])
    by reflexivity.
  assert (Hget : Dict.get (npm.lower_keys recs) (npm.spec_name "coffee-script")
                 = Some (VDict [("required", VStr "~1.0");
                                ("missing", VBool true)])) by reflexivity.
  assert (Hver : Dict.get [("required", VStr "~1.0"); ("missing", VBool true)]
                   "version" = None) by reflexivity.
  repeat (split; [assumption |]).
  exact (installed_record_lacks_version h "coffee-script" None VNone VNone
           (VInt 1) VNone VNone recs _ "coffee-script" [] Hlist Hfr Hwork
           Hget Hver).
Defined.

(** X9. A listing that is not a mapping: [installed] ends with
    [AttributeError] on [.items()] whatever else was returned, and [removed]
    ends with [TypeError] on [name not in ...] when it was [None], a boolean
    or a number; no other call is made. *)
Theorem listing_not_a_mapping (h : Host) (name : string)
    (pkgs : option (list string)) (dir user force_reinstall registry env : PyVal)
    (listed : PyVal) :
  (__salt__ h "npm.list" (npm.list_args dir user env) = inr listed ->
   Py.is_dict listed = false ->
   run (npm.installed name pkgs dir user force_reinstall registry env) h
   = ([mkCall "npm.list" (npm.list_args dir user env)],
      inl (AttributeError "items")))
  /\ (__salt__ h "npm.list" [("dir", dir)] = inr listed ->
      Py.is_dict listed = false -> Py.is_list listed = false ->
      Py.is_str listed = false ->
      run (npm.removed name dir user) h
      = ([mkCall "npm.list" [("dir", dir)]], inl TypeError)).
Proof.
  split.
  - intros Hlist Hnot. run_salt. rewrite Hlist. cbn.
    destruct listed; try discriminate; reflexivity.
  - intros Hlist Hd Hl Hs. run_salt. rewrite Hlist. cbn.
    destruct listed; try discriminate; reflexivity.
Qed.

Lemma listing_not_a_mapping_witness :
  let h := host (inr VNone) (inr VNone) (inr VNone) false in
  __salt__ h "npm.list" (npm.list_args VNone VNone VNone) = inr VNone
  /\ Py.is_dict VNone = false
  /\ run (npm.installed "grunt" None VNone VNone (VBool false) VNone VNone) h
     = ([mkCall "npm.list" (npm.list_args VNone VNone VNone)],
        inl (AttributeError "items")).
Proof.
  intro h.
  assert (Hlist : __salt__ h "npm.list" (npm.list_args VNone VNone VNone)
                  = inr VNone) by reflexivity.
  assert (Hnot : Py.is_dict VNone = false) by reflexivity.
  repeat (split; [assumption |]).
  exact (proj1 (listing_not_a_mapping h "grunt" None VNone VNone (VBool false)
                  VNone VNone VNone) Hlist Hnot).
Defined.

(** ** [removed] *)

(** X10. For a recorded name with dry-run off, [removed] calls
    [npm.uninstall(pkg=name, dir=dir, runas=user)] with the name as given;
    a truthy answer gives result true with changes [{name: 'Removed'}], a
    falsy one result false, "Error removing package <name>", no changes. *)
Theorem removed_uninstall_outcome (h : Host) (name : string) (dir user : PyVal)
    (recs : dict PyVal) (gone : PyVal) :
  __salt__ h "npm.list" [("dir", dir)] = inr (VDict recs) ->
  In name (Dict.keys recs) ->
  for_real h ->
  __salt__ h "npm.uninstall" [("pkg", VStr name); ("dir", dir); ("runas", user)]
    = inr gone ->
  run (npm.removed name dir user) h
  = ([mkCall "npm.list" [("dir", dir)];
      mkCall "npm.uninstall" [("pkg", VStr name); ("dir", dir); ("runas", user)]],
     inr (if Py.truthy gone
          then record name (VBool true)
                 ("Package " ++ PyStr.repr name ++ " was successfully removed")
                 (VDict [(name, VStr "Removed")])
          else record name (VBool false)
                 ("Error removing package " ++ PyStr.repr name) (VDict []))).
Proof.
  intros Hlist Hin (t & Ht & Hoff) Hcall. apply mem_keys in Hin.
  run_salt. rewrite Hlist. cbn. rewrite Hin. cbn. rewrite Ht. cbn.
  rewrite Hoff, Hcall. destruct (Py.truthy gone); reflexivity.
Qed.

Lemma removed_uninstall_outcome_witness :
  let h := host (inr (VDict (coffee_script "1.0.0"))) (inr VNone)
             (inr (VBool false)) false in
  __salt__ h "npm.list" [("dir", VStr "/srv/app")]
    = inr (VDict (coffee_script "1.0.0"))
  /\ In "coffee-script" (Dict.keys (coffee_script "1.0.0"))
  /\ for_real h
  /\ __salt__ h "npm.uninstall"
       [("pkg", VStr "coffee-script"); ("dir", VStr "/srv/app");
        ("runas", VStr "node")] = inr (VBool false)
  /\ run (npm.removed "coffee-script" (VStr "/srv/app") (VStr "node")) h
     = ([mkCall "npm.list" [("dir", VStr "/srv/app")];
         mkCall "npm.uninstall"
           [("pkg", VStr "coffee-script"); ("dir", VStr "/srv/app");
            ("runas", VStr "node")]],
        inr (record "coffee-script" (VBool false)
               "Error removing package 'coffee-script'" (VDict []))).
Proof.
  intro h.
  assert (Hlist : __salt__ h "npm.list" [("dir", VStr "/srv/app")]
                  = inr (VDict (coffee_script "1.0.0"))) by reflexivity.
  assert (Hin : In "coffee-script" (Dict.keys (coffee_script "1.0.0")))
    by (left; reflexivity).
  assert (Hreal : for_real h) by (exists (VBool false); split; reflexivity).
  assert (Hcall : __salt__ h "npm.uninstall"
                    [("pkg", VStr "coffee-script"); ("dir", VStr "/srv/app");
                     ("runas", VStr "node")] = inr (VBool false))
    by reflexivity.
  repeat (split; [assumption |]).
  exact (removed_uninstall_outcome h "coffee-script" (VStr "/srv/app")
           (VStr "node") _ (VBool false) Hlist Hin Hreal Hcall).
Defined.

(** X11. Under dry-run a recorded name gets result null and "Package <name>
    is set to be removed", with no changes, after the listing call alone. *)
Theorem removed_dry_run_pending (h : Host) (name : string) (dir user : PyVal)
    (recs : dict PyVal) :
  __salt__ h "npm.list" [("dir", dir)] = inr (VDict recs) ->
  In name (Dict.keys recs) ->
  dry_run h ->
  run (npm.removed name dir user) h
  = ([mkCall "npm.list" [("dir", dir)]],
     inr (record name VNone
            ("Package " ++ PyStr.repr name ++ " is set to be removed")
            (VDict []))).
Proof.
  intros Hlist Hin (t & Ht & Hon). apply mem_keys in Hin.
  run_salt. rewrite Hlist. cbn. rewrite Hin. cbn. rewrite Ht. cbn.
  rewrite Hon. reflexivity.
Qed.

Lemma removed_dry_run_pending_witness :
  let h := host (inr (VDict (coffee_script "1.0.0"))) (inr VNone)
             (inr (VBool true)) true in
  __salt__ h "npm.list" [("dir", VNone)] = inr (VDict (coffee_script "1.0.0"))
  /\ In "coffee-script" (Dict.keys (coffee_script "1.0.0"))
  /\ dry_run h
  /\ run (npm.removed "coffee-script" VNone VNone) h
     = ([mkCall "npm.list" [("dir", VNone)]],
        inr (record "coffee-script" VNone
               "Package 'coffee-script' is set to be removed" (VDict []))).
Proof.
  intro h.
  assert (Hlist : __salt__ h "npm.list" [("dir", VNone)]
                  = inr (VDict (coffee_script "1.0.0"))) by reflexivity.
  assert (Hin : In "coffee-script" (Dict.keys (coffee_script "1.0.0")))
    by (left; reflexivity).
  assert (Hdry : dry_run h) by (exists (VBool true); split; reflexivity).
  repeat (split; [assumption |]).
  exact (removed_dry_run_pending h "coffee-script" VNone VNone _ Hlist Hin Hdry).
Defined.

(** X12. When [npm.list] fails with one of the two kinds caught, [removed]
    returns result false with "Error uninstalling <name>: <error text>" and
    no changes, having made the listing call only. *)
Theorem removed_listing_failure (h : Host) (name : string) (dir user : PyVal)
    (e : exn) (msg : string) :
  __salt__ h "npm.list" [("dir", dir)] = inl e ->
  salt_error e msg ->
  run (npm.removed name dir user) h
  = ([mkCall "npm.list" [("dir", dir)]],
     inr (record name (VBool false)
            ("Error uninstalling " ++ PyStr.repr name ++ ": " ++ msg)
            (VDict []))).
Proof.
  intros Hlist [-> | ->]; run_salt; rewrite Hlist; reflexivity.
Qed.

Lemma removed_listing_failure_witness :
  let h := host (inl (CommandExecutionError "npm ERR! EACCES"))
             (inr VNone) (inr VNone) false in
  __salt__ h "npm.list" [("dir", VNone)]
    = inl (CommandExecutionError "npm ERR! EACCES")
  /\ salt_error (CommandExecutionError "npm ERR! EACCES") "npm ERR! EACCES"
  /\ run (npm.removed "grunt" VNone VNone) h
     = ([mkCall "npm.list" [("dir", VNone)]],
        inr (record "grunt" (VBool false)
               "Error uninstalling 'grunt': npm ERR! EACCES" (VDict []))).
Proof.
  intro h.
  assert (Hlist : __salt__ h "npm.list" [("dir", VNone)]
                  = inl (CommandExecutionError "npm ERR! EACCES"))
    by reflexivity.
  assert (Herr : salt_error (CommandExecutionError "npm ERR! EACCES")
                   "npm ERR! EACCES") by (right; reflexivity).
  repeat (split; [assumption |]).
  exact (removed_listing_failure h "grunt" VNone VNone _ _ Hlist Herr).
Defined.

(** ** [bootstrap] *)

(** X13. Whatever the host - its options, what [npm.install] answers or
    raises - [bootstrap] makes exactly one call,
    [npm.install(dir=name, runas=user, pkg=None)], so it never lists; and it
    never reads [__opts__]: with any other option dict in place, the dry-run
    flag set, unset or missing, the run is the same, calls and outcome. *)
Theorem bootstrap_single_call (h : Host) (name : string) (user : PyVal) :
  fst (run (npm.bootstrap name user) h)
  = [mkCall "npm.install" [("dir", VStr name); ("runas", user); ("pkg", VNone)]]
  /\ forall options,
       run (npm.bootstrap name user) (mkHost (__salt__ h) options)
       = run (npm.bootstrap name user) h.
Proof.
  split.
  - run_salt.
    destruct (__salt__ h "npm.install" _) as [e|v]; cbn.
    + destruct e; reflexivity.
    + break_all; reflexivity.
  - intros options. run_salt.
    destruct (__salt__ h "npm.install" _) as [e|v]; cbn.
    + destruct e; reflexivity.
    + break_all; reflexivity.
Qed.

(** X14. When [npm.install] fails with one of the two kinds caught,
    [bootstrap] returns result false with "Error Bootstrapping <name>:
    <error text>" and no changes. *)
Theorem bootstrap_failure (h : Host) (name : string) (user : PyVal)
    (e : exn) (msg : string) :
  __salt__ h "npm.install" [("dir", VStr name); ("runas", user); ("pkg", VNone)]
    = inl e ->
  salt_error e msg ->
  snd (run (npm.bootstrap name user) h)
  = inr (record name (VBool false)
           ("Error Bootstrapping " ++ PyStr.repr name ++ ": " ++ msg) (VDict [])).
Proof.
  intros Hcall [-> | ->]; run_salt; rewrite Hcall; reflexivity.
Qed.

Lemma bootstrap_failure_witness :
  let h := host (inr VNone) (inl (CommandNotFoundError "npm: command not found"))
             (inr VNone) false in
  __salt__ h "npm.install" [("dir", VStr "/proj"); ("runas", VNone); ("pkg", VNone)]
    = inl (CommandNotFoundError "npm: command not found")
  /\ salt_error (CommandNotFoundError "npm: command not found")
       "npm: command not found"
  /\ snd (run (npm.bootstrap "/proj" VNone) h)
     = inr (record "/proj" (VBool false)
              "Error Bootstrapping '/proj': npm: command not found" (VDict [])).
Proof.
  intro h.
  assert (Hcall : __salt__ h "npm.install"
                    [("dir", VStr "/proj"); ("runas", VNone); ("pkg", VNone)]
                  = inl (CommandNotFoundError "npm: command not found"))
    by reflexivity.
  assert (Herr : salt_error (CommandNotFoundError "npm: command not found")
                   "npm: command not found") by (left; reflexivity).
  repeat (split; [assumption |]).
  exact (bootstrap_failure h "/proj" VNone _ _ Hcall Herr).
Defined.

(** ** Invariants of every run *)

(** X15. Every run of [installed] makes the listing call first and at most
    one more call, to [npm.install]; every run of [removed] makes the
    listing call first and at most one more,
    [npm.uninstall(pkg=name, dir=dir, runas=user)].  So neither makes more
    than two calls, and neither calls the other's mutating function. *)
Theorem call_log_shape (h : Host) (name : string) (pkgs : option (list string))
    (dir user force_reinstall registry env : PyVal) :
  (fst (run (npm.installed name pkgs dir user force_reinstall registry env) h)
   = [mkCall "npm.list" (npm.list_args dir user env)]
   \/ exists args,
        fst (run (npm.installed name pkgs dir user force_reinstall registry env) h)
        = [mkCall "npm.list" (npm.list_args dir user env);
           mkCall "npm.install" args])
  /\ (fst (run (npm.removed name dir user) h) = [mkCall "npm.list" [("dir", dir)]]
      \/ fst (run (npm.removed name dir user) h)
         = [mkCall "npm.list" [("dir", dir)];
            mkCall "npm.uninstall"
              [("pkg", VStr name); ("dir", dir); ("runas", user)]]).
Proof.
  split; run_salt; break_all; cbn; eauto.
Qed.

(** X16. A record with result false never reports changes: whenever
    [installed], [removed] or [bootstrap] returns result false, its changes
    are the empty mapping. *)
Theorem failed_result_has_no_changes (h : Host) (name : string)
    (pkgs : option (list string)) (dir user force_reinstall registry env : PyVal)
    (r : dict PyVal) :
  (snd (run (npm.installed name pkgs dir user force_reinstall registry env) h)
     = inr r ->
   Dict.get r "result" = Some (VBool false) ->
   Dict.get r "changes" = Some (VDict []))
  /\ (snd (run (npm.removed name dir user) h) = inr r ->
      Dict.get r "result" = Some (VBool false) ->
      Dict.get r "changes" = Some (VDict []))
  /\ (snd (run (npm.bootstrap name user) h) = inr r ->
      Dict.get r "result" = Some (VBool false) ->
      Dict.get r "changes" = Some (VDict [])).
Proof.
  repeat split; run_salt; break_all; try discriminate; failed_no_changes.
Qed.

Lemma failed_result_has_no_changes_witness :
  let h := host (inr VNone) (inr (VStr "unparseable output")) (inr VNone) false in
  let r := record "/proj" (VBool false) "Could not bootstrap directory" (VDict []) in
  snd (run (npm.bootstrap "/proj" VNone) h) = inr r
  /\ Dict.get r "result" = Some (VBool false)
  /\ Dict.get r "changes" = Some (VDict []).
Proof.
  intros h r.
  assert (Hrun : snd (run (npm.bootstrap "/proj" VNone) h) = inr r)
    by reflexivity.
  assert (Hres : Dict.get r "result" = Some (VBool false)) by reflexivity.
  repeat (split; [assumption |]).
  exact (proj2 (proj2 (failed_result_has_no_changes h "/proj" None VNone VNone
                         (VBool false) VNone VNone r)) Hrun Hres).
Defined.

(** X17. A record with result true that reports changes is backed by a call
    that makes them: whenever [installed], [removed] or [bootstrap] returns
    result true with changes that are not empty, [npm.install] or
    [npm.uninstall] was invoked in that run. *)
Theorem reported_change_was_made (h : Host) (name : string)
    (pkgs : option (list string)) (dir user force_reinstall registry env : PyVal)
    (r : dict PyVal) :
  (snd (run (npm.installed name pkgs dir user force_reinstall registry env) h)
     = inr r ->
   Dict.get r "result" = Some (VBool true) ->
   Dict.get r "changes" <> Some (VDict []) ->
   existsb mutating
     (fst (run (npm.installed name pkgs dir user force_reinstall registry env) h))
   = true)
  /\ (snd (run (npm.removed name dir user) h) = inr r ->
      Dict.get r "result" = Some (VBool true) ->
      Dict.get r "changes" <> Some (VDict []) ->
      existsb mutating (fst (run (npm.removed name dir user) h)) = true)
  /\ (snd (run (npm.bootstrap name user) h) = inr r ->
      Dict.get r "result" = Some (VBool true) ->
      Dict.get r "changes" <> Some (VDict []) ->
      existsb mutating (fst (run (npm.bootstrap name user) h)) = true).
Proof.
  repeat split; run_salt; break_all; try discriminate; change_is_backed.
Qed.

Lemma reported_change_was_made_witness :
  let h := host (inr (VDict (coffee_script "1.0.0"))) (inr VNone)
             (inr (VBool true)) false in
  let r := record "coffee-script" (VBool true)
             "Package 'coffee-script' was successfully removed"
             (VDict [("coffee-script", VStr "Removed")]) in
  snd (run (npm.removed "coffee-script" VNone VNone) h) = inr r
  /\ Dict.get r "result" = Some (VBool true)
  /\ Dict.get r "changes" <> Some (VDict [])
  /\ existsb mutating (fst (run (npm.removed "coffee-script" VNone VNone) h))
     = true.
Proof.
  intros h r.
  assert (Hrun : snd (run (npm.removed "coffee-script" VNone VNone) h) = inr r)
    by reflexivity.
  assert (Hres : Dict.get r "result" = Some (VBool true)) by reflexivity.
  assert (Hch : Dict.get r "changes" <> Some (VDict [])) by discriminate.
  repeat (split; [assumption |]).
  exact (proj1 (proj2 (reported_change_was_made h "coffee-script" None VNone
                         VNone (VBool false) VNone VNone r)) Hrun Hres Hch).
Defined.

(** X18. When [pkgs] is given, [name] decides nothing: two calls of
    [installed] that differ in [name] only make the same calls into
    [__salt__] and end alike - with the same exception, or with records of
    the same result and the same changes. *)
Theorem installed_pkgs_ignores_name (h : Host) (name1 name2 : string)
    (l : list string) (dir user force_reinstall registry env : PyVal) :
  fst (run (npm.installed name1 (Some l) dir user force_reinstall registry env) h)
  = fst (run (npm.installed name2 (Some l) dir user force_reinstall registry env) h)
  /\ same_verdict
       (snd (run (npm.installed name1 (Some l) dir user force_reinstall
                    registry env) h))
       (snd (run (npm.installed name2 (Some l) dir user force_reinstall
                    registry env) h)).
Proof.
  unfold same_verdict. run_salt. unfold npm.working_list, npm.install_args.
  split; break_all; cbn; auto.
Qed.

(** ** Names: lower-casing of the records, parsing of a spec *)

Lemma keys_set {V : Type} (d : dict V) (k k' : string) (v : V) :
  In k (Dict.keys (Dict.set d k' v)) <-> k = k' \/ In k (Dict.keys d).
Proof.
  unfold Dict.keys. induction d as [|[a b] d IH]; cbn.
  - intuition congruence.
  - destruct (String.eqb_spec a k') as [->|Hne]; cbn.
    + intuition congruence.
    + rewrite IH. intuition congruence.
Qed.

Lemma lower_keys_from (items d : dict PyVal) (k : string) :
  In k (Dict.keys
          (fold_left (fun d kv => Dict.set d (PyStr.lower (fst kv)) (snd kv))
             items d))
  <-> In k (Dict.keys d)
      \/ exists p, In p (Dict.keys items) /\ PyStr.lower p = k.
Proof.
  set (f := fun (d : dict PyVal) (kv : string * PyVal) =>
              Dict.set d (PyStr.lower (fst kv)) (snd kv)).
  revert d. induction items as [|[p info] items IH]; intros d.
  - cbn. split; [now left | intros [H | (p & [] & _)]; exact H].
  - change (fold_left f ((p, info) :: items) d)
      with (fold_left f items (Dict.set d (PyStr.lower p) info)).
    rewrite IH, keys_set.
    change (Dict.keys ((p, info) :: items)) with (p :: Dict.keys items).
    split.
    + intros [[-> | H] | (q & Hq & Hl)]; [right | now left | right].
      * exists p. split; [now left | reflexivity].
      * exists q. split; [now right | exact Hl].
    + intros [H | (q & [<- | Hq] & Hl)]; [left; now right | left; now left |].
      right. now exists q.
Qed.

Lemma lower_keys_found (recs : dict PyVal) (k : string) :
  Dict.mem k (npm.lower_keys recs) = true
  <-> exists p, In p (Dict.keys recs) /\ PyStr.lower p = k.
Proof.
  rewrite mem_keys. unfold npm.lower_keys. rewrite lower_keys_from. cbn.
  split; [intros [[] | H]; exact H | now right].
Qed.

(** X19. The records [installed] works with are keyed by lower-cased name:
    a name is found in them exactly when it is the lower-casing of a key of
    the listing, whatever the capitals of that key. *)
Theorem lower_keys_mem (recs : dict PyVal) (k : string) :
  Dict.mem k (npm.lower_keys recs) = true
  <-> exists p, In p (Dict.keys recs) /\ PyStr.lower p = k.
Proof. exact (lower_keys_found recs k). Qed.

Lemma partition_split (sep : ascii) (head tail : string) :
  ~ occurs sep head ->
  PyStr.partition sep (head ++ String sep tail)
  = (head, String sep EmptyString, tail).
Proof.
  unfold occurs. induction head as [|c r IH]; intros Hno.
  - change (EmptyString ++ String sep tail) with (String sep tail).
    cbn [PyStr.partition]. now rewrite Ascii.eqb_refl.
  - change (String c r ++ String sep tail)
      with (String c (r ++ String sep tail)).
    cbn [PyStr.partition].
    destruct (Ascii.eqb_spec c sep) as [->|Hne]; [exfalso; apply Hno; now left |].
    rewrite IH by (intros H; apply Hno; now right). reflexivity.
Qed.

Lemma partition_absent (sep : ascii) (s : string) :
  ~ occurs sep s -> PyStr.partition sep s = (s, EmptyString, EmptyString).
Proof.
  unfold occurs. induction s as [|c r IH]; intros Hno; [reflexivity |].
  cbn [PyStr.partition].
  destruct (Ascii.eqb_spec c sep) as [->|Hne]; [exfalso; apply Hno; now left |].
  rewrite IH by (intros H; apply Hno; now right). reflexivity.
Qed.

(** X20. A spec [name@version] whose name holds no [@] is read back as the
    stripped, lower-cased name and the version as written, further [@]s
    included; a spec without [@] declares no version. *)
Theorem spec_parse (name version : string) :
  ~ occurs "@" name ->
  npm.spec_name (name ++ String "@" version) = PyStr.lower (PyStr.strip name)
  /\ npm.spec_ver (name ++ String "@" version) = version
  /\ npm.spec_name name = PyStr.lower (PyStr.strip name)
  /\ npm.spec_ver name = "".
Proof.
  intros Hno. unfold npm.spec_name, npm.spec_ver.
  rewrite (partition_split "@" name version Hno).
  rewrite (partition_absent "@" name Hno). repeat split.
Qed.

Lemma spec_parse_witness :
  ~ occurs "@" " Coffee-Script "
  /\ npm.spec_name (" Coffee-Script " ++ String "@" "1.0.1@beta") = "coffee-script"
  /\ npm.spec_ver (" Coffee-Script " ++ String "@" "1.0.1@beta") = "1.0.1@beta"
  /\ npm.spec_name " Coffee-Script " = "coffee-script"
  /\ npm.spec_ver " Coffee-Script " = "".
Proof.
  assert (Hno : ~ occurs "@" " Coffee-Script ").
  { unfold occurs. cbn. intros H.
    repeat (destruct H as [H | H]; [discriminate |]). exact H. }
  split; [exact Hno |].
  exact (spec_parse " Coffee-Script " "1.0.1@beta" Hno).
Defined.

Lemma lower_empty (p : string) : PyStr.lower p = "" -> p = "".
Proof. destruct p; [reflexivity | discriminate]. Qed.

(** X21. A scoped package name, one that begins with [@], is split at that
    first character: its name part is empty.  Unless the listing holds the
    empty key, [installed] then never finds it installed and, dry-run off,
    calls [npm.install] with [pkg=''] on the single-name path. *)
Theorem installed_scoped_name (h : Host) (rest : string)
    (dir user force_reinstall registry env : PyVal) (recs : dict PyVal) :
  __salt__ h "npm.list" (npm.list_args dir user env) = inr (VDict recs) ->
  for_real h ->
  ~ In "" (Dict.keys recs) ->
  npm.spec_name (String "@" rest) = ""
  /\ fst (run (npm.installed (String "@" rest) None dir user force_reinstall
                 registry env) h)
     = [mkCall "npm.list" [("dir", dir); ("runas", user); ("env", env)];
        mkCall "npm.install"
          [("dir", dir); ("runas", user); ("registry", registry); ("env", env);
           ("pkg", VStr "")]].
Proof.
  intros Hlist Hreal Hno.
  assert (Hname : npm.spec_name (String "@" rest) = "") by reflexivity.
  split; [exact Hname |].
  assert (Hmem : Dict.mem "" (npm.lower_keys recs) = false).
  { destruct (Dict.mem "" (npm.lower_keys recs)) eqn:E; [| reflexivity].
    apply lower_keys_found in E. destruct E as (p & Hp & Hl).
    apply lower_empty in Hl. subst p. contradiction. }
  set (v := npm.mkVars (Some "") [] [String "@" rest]).
  assert (Hloop : npm.loop force_reinstall (npm.lower_keys recs)
                    (npm.working_list (String "@" rest) None)
                    (npm.mkVars None [] []) = inr v).
  { unfold npm.working_list, npm.loop, npm.loop_body. rewrite Hname, Hmem.
    cbn. destruct (Py.is_True force_reinstall); reflexivity. }
  assert (Hsome : npm.pkgs_to_install v <> []) by discriminate.
  now rewrite (installed_reaches_install h (String "@" rest) None dir user
                 force_reinstall registry env recs v _ Hlist Hreal Hloop Hsome
                 eq_refl).
Qed.

Lemma installed_scoped_name_witness :
  let recs := [("@angular/core", VDict [("version", VStr "2.0.0")])] in
  let h := host (inr (VDict recs)) (inr VNone) (inr VNone) false in
  __salt__ h "npm.list" (npm.list_args VNone VNone VNone) = inr (VDict recs)
  /\ for_real h
  /\ ~ In "" (Dict.keys recs)
  /\ npm.spec_name "@angular/core" = ""
  /\ fst (run (npm.installed "@angular/core" None VNone VNone (VBool false)
                 VNone VNone) h)
     = [mkCall "npm.list" [("dir", VNone); ("runas", VNone); ("env", VNone)];
        mkCall "npm.install"
          [("dir", VNone); ("runas", VNone); ("registry", VNone); ("env", VNone);
           ("pkg", VStr "")]].
Proof.
  intros recs h.
  assert (Hlist : __salt__ h "npm.list" (npm.list_args VNone VNone VNone)
                  = inr (VDict recs)) by reflexivity.
  assert (Hreal : for_real h) by (exists (VBool false); split; reflexivity).
  assert (Hno : ~ In "" (Dict.keys recs))
    by (cbn; intros [H | []]; discriminate).
  repeat (split; [assumption |]).
  exact (installed_scoped_name h "angular/core" VNone VNone (VBool false) VNone
           VNone recs Hlist Hreal Hno).
Defined.

(** ** The normalised name is a normal form *)

Lemma lower_char_idem (c : ascii) :
  PyStr.lower_char (PyStr.lower_char c) = PyStr.lower_char c.
Proof. destruct c as [[] [] [] [] [] [] [] []]; reflexivity. Qed.

Lemma is_space_lower (c : ascii) :
  PyStr.is_space (PyStr.lower_char c) = PyStr.is_space c.
Proof. destruct c as [[] [] [] [] [] [] [] []]; reflexivity. Qed.

Lemma lower_char_at (c : ascii) : PyStr.lower_char c = "@"%char -> c = "@"%char.
Proof.
  destruct c as [[] [] [] [] [] [] [] []]; intros H;
    first [reflexivity | discriminate H].
Qed.

Lemma lower_idem (s : string) : PyStr.lower (PyStr.lower s) = PyStr.lower s.
Proof.
  induction s as [|c r IH]; cbn; [reflexivity |].
  now rewrite lower_char_idem, IH.
Qed.

Lemma lstrip_lower (s : string) :
  PyStr.lstrip (PyStr.lower s) = PyStr.lower (PyStr.lstrip s).
Proof.
  induction s as [|c r IH]; cbn; [reflexivity |].
  rewrite is_space_lower. destruct (PyStr.is_space c); [exact IH | reflexivity].
Qed.

Lemma rstrip_lower (s : string) :
  PyStr.rstrip (PyStr.lower s) = PyStr.lower (PyStr.rstrip s).
Proof.
  induction s as [|c r IH]; cbn; [reflexivity |].
  rewrite IH, is_space_lower.
  destruct (PyStr.rstrip r); cbn; [| reflexivity].
  destruct (PyStr.is_space c); reflexivity.
Qed.

Lemma lstrip_idem (s : string) :
  PyStr.lstrip (PyStr.lstrip s) = PyStr.lstrip s.
Proof.
  induction s as [|c r IH]; cbn; [reflexivity |].
  destruct (PyStr.is_space c) eqn:E; [exact IH |]. cbn. now rewrite E.
Qed.

Lemma rstrip_idem (s : string) :
  PyStr.rstrip (PyStr.rstrip s) = PyStr.rstrip s.
Proof.
  induction s as [|c r IH]; [reflexivity |]. cbn [PyStr.rstrip].
  destruct (PyStr.rstrip r) as [|c' r'] eqn:E.
  - destruct (PyStr.is_space c) eqn:Ec; cbn; [reflexivity |]. now rewrite Ec.
  - change (PyStr.rstrip (String c (String c' r')))
      with (match PyStr.rstrip (String c' r') with
            | EmptyString =>
                if PyStr.is_space c then EmptyString else String c EmptyString
            | String a b => String c (String a b)
            end).
    rewrite IH. reflexivity.
Qed.

Lemma lstrip_length (s : string) :
  String.length (PyStr.lstrip s) <= String.length s.
Proof.
  induction s as [|c r IH]; cbn; [lia |].
  destruct (PyStr.is_space c); cbn; lia.
Qed.

(** Stripping the right end of a string that has no blank in front leaves
    none in front. *)
Lemma lstrip_rstrip (s : string) :
  PyStr.lstrip s = s -> PyStr.lstrip (PyStr.rstrip s) = PyStr.rstrip s.
Proof.
  destruct s as [|c r]; [reflexivity |]. cbn.
  destruct (PyStr.is_space c) eqn:E.
  - intros H. pose proof (lstrip_length r) as Hlen. rewrite H in Hlen.
    cbn in Hlen. lia.
  - intros _. destruct (PyStr.rstrip r); cbn; now rewrite E.
Qed.

Lemma strip_idem (s : string) : PyStr.strip (PyStr.strip s) = PyStr.strip s.
Proof.
  unfold PyStr.strip.
  rewrite (lstrip_rstrip (PyStr.lstrip s) (lstrip_idem s)).
  apply rstrip_idem.
Qed.

Lemma strip_lower (s : string) :
  PyStr.strip (PyStr.lower s) = PyStr.lower (PyStr.strip s).
Proof. unfold PyStr.strip. now rewrite lstrip_lower, rstrip_lower. Qed.

Lemma occurs_lstrip (c : ascii) (s : string) :
  occurs c (PyStr.lstrip s) -> occurs c s.
Proof.
  unfold occurs. induction s as [|a r IH]; cbn; [auto |].
  destruct (PyStr.is_space a); cbn; auto.
Qed.

Lemma occurs_rstrip (c : ascii) (s : string) :
  occurs c (PyStr.rstrip s) -> occurs c s.
Proof.
  unfold occurs. induction s as [|a r IH]; cbn; [auto |].
  destruct (PyStr.rstrip r) as [|a' r'].
  - destruct (PyStr.is_space a); cbn; tauto.
  - cbn in *. tauto.
Qed.

Lemma occurs_lower_at (s : string) :
  occurs "@" (PyStr.lower s) -> occurs "@" s.
Proof.
  unfold occurs. induction s as [|a r IH]; cbn; [auto |].
  intros [H | H]; [left; now apply lower_char_at | right; auto].
Qed.

Lemma partition_head_clean (sep : ascii) (s : string) :
  ~ occurs sep (fst (fst (PyStr.partition sep s))).
Proof.
  unfold occurs. induction s as [|c r IH]; cbn [PyStr.partition].
  - cbn. tauto.
  - destruct (Ascii.eqb_spec c sep) as [->|Hne]; [cbn; tauto |].
    destruct (PyStr.partition sep r) as [[hd m] t].
    destruct m; cbn in *; intros [H | H]; auto.
Qed.

(** X22. The name [installed] compares and passes on is a normal form: it
    holds no [@], and reading it as a spec gives the same name back with no
    version. *)
Theorem spec_name_normal (pkg : string) :
  ~ occurs "@" (npm.spec_name pkg)
  /\ npm.spec_name (npm.spec_name pkg) = npm.spec_name pkg
  /\ npm.spec_ver (npm.spec_name pkg) = "".
Proof.
  assert (Hclean : ~ occurs "@" (npm.spec_name pkg)).
  { unfold npm.spec_name, PyStr.strip. intros H.
    apply occurs_lower_at, occurs_rstrip, occurs_lstrip in H.
    exact (partition_head_clean "@" pkg H). }
  split; [exact Hclean |].
  pose proof (partition_absent "@" (npm.spec_name pkg) Hclean) as Hpart.
  split.
  - unfold npm.spec_name at 1. rewrite Hpart. cbn [fst]. unfold npm.spec_name.
    rewrite strip_lower, lower_idem, strip_idem. reflexivity.
  - unfold npm.spec_ver. now rewrite Hpart.
Qed.

(** ** What is left of dry-run and of failures *)

(** X23. The call of [npm.uninstall] is not guarded: whatever it raises, of
    the two kinds caught elsewhere or of another class, ends [removed] with
    that exception after the two calls, and no record is returned. *)
Theorem removed_uninstall_exception (h : Host) (name : string) (dir user : PyVal)
    (recs : dict PyVal) (e : exn) :
  __salt__ h "npm.list" [("dir", dir)] = inr (VDict recs) ->
  In name (Dict.keys recs) ->
  for_real h ->
  __salt__ h "npm.uninstall" [("pkg", VStr name); ("dir", dir); ("runas", user)]
    = inl e ->
  run (npm.removed name dir user) h
  = ([mkCall "npm.list" [("dir", dir)];
      mkCall "npm.uninstall" [("pkg", VStr name); ("dir", dir); ("runas", user)]],
     inl e).
Proof.
  intros Hlist Hin (t & Ht & Hoff) Hcall. apply mem_keys in Hin.
  run_salt. rewrite Hlist. cbn. rewrite Hin. cbn. rewrite Ht. cbn.
  rewrite Hoff, Hcall. reflexivity.
Qed.

Lemma removed_uninstall_exception_witness :
  let e := CommandNotFoundError "npm: command not found" in
  let h := host (inr (VDict (coffee_script "1.0.0"))) (inr VNone) (inl e) false in
  __salt__ h "npm.list" [("dir", VNone)] = inr (VDict (coffee_script "1.0.0"))
  /\ In "coffee-script" (Dict.keys (coffee_script "1.0.0"))
  /\ for_real h
  /\ __salt__ h "npm.uninstall"
       [("pkg", VStr "coffee-script"); ("dir", VNone); ("runas", VNone)] = inl e
  /\ run (npm.removed "coffee-script" VNone VNone) h
     = ([mkCall "npm.list" [("dir", VNone)];
         mkCall "npm.uninstall"
           [("pkg", VStr "coffee-script"); ("dir", VNone); ("runas", VNone)]],
        inl e).
Proof.
  intros e h.
  assert (Hlist : __salt__ h "npm.list" [("dir", VNone)]
                  = inr (VDict (coffee_script "1.0.0"))) by reflexivity.
  assert (Hin : In "coffee-script" (Dict.keys (coffee_script "1.0.0")))
    by (left; reflexivity).
  assert (Hreal : for_real h) by (exists (VBool false); split; reflexivity).
  assert (Hcall : __salt__ h "npm.uninstall"
                    [("pkg", VStr "coffee-script"); ("dir", VNone);
                     ("runas", VNone)] = inl e) by reflexivity.
  repeat (split; [assumption |]).
  exact (removed_uninstall_exception h "coffee-script" VNone VNone _ e
           Hlist Hin Hreal Hcall).
Defined.

(** X24. Under dry-run neither [installed] nor [removed] ever invokes
    [npm.install] or [npm.uninstall], on any path: whatever the listing
    returns or raises, whatever the working list and the records. *)
Theorem dry_run_makes_no_change (h : Host) (name : string)
    (pkgs : option (list string)) (dir user force_reinstall registry env : PyVal) :
  dry_run h ->
  existsb mutating
    (fst (run (npm.installed name pkgs dir user force_reinstall registry env) h))
  = false
  /\ existsb mutating (fst (run (npm.removed name dir user) h)) = false.
Proof.
  intros Hdry. split.
  - exact (proj1 (installed_dry_run h name pkgs dir user force_reinstall
                    registry env Hdry)).
  - exact (proj1 (removed_dry_run h name dir user Hdry)).
Qed.

Lemma dry_run_makes_no_change_witness :
  let h := host (inr (VDict (coffee_script "1.0.0")))
             (inr (VDict [("left-pad", VNone)])) (inr (VBool true)) true in
  dry_run h
  /\ existsb mutating
       (fst (run (npm.installed "coffee-script" None VNone VNone (VBool true)
                    VNone VNone) h)) = false
  /\ existsb mutating (fst (run (npm.removed "coffee-script" VNone VNone) h))
     = false.
Proof.
  intro h.
  assert (Hdry : dry_run h) by (exists (VBool true); split; reflexivity).
  split; [exact Hdry |].
  exact (dry_run_makes_no_change h "coffee-script" None VNone VNone (VBool true)
           VNone VNone Hdry).
Defined.
